(** * The feedback classification pipeline of [src/ai.ts]

    A shallow embedding of [FeedbackClassifier] (classifyFeedback,
    parseAIResponse, determineRoute, extractThemes) together with the part of
    the JavaScript runtime these methods rely on: dynamically typed JSON
    values, property access, object spread, relational comparison with its
    coercions, and the two regular expressions used to cut a JSON text out of
    a model response.

    JavaScript numbers are IEEE 754 binary64 values: they are modelled by the
    kernel's primitive floats.  A JavaScript string is a sequence of code
    units; it is modelled by [string], one [ascii] per code unit, which
    covers the code units 0..255 (nothing proved below depends on the
    range). *)

From Stdlib Require Import ZArith List String Ascii Bool Floats Lia.
From Stdlib Require Import DecimalString.
Import ListNotations.

#[local] Set Warnings "-inexact-float,-register-all".
#[local] Open Scope list_scope.
#[local] Open Scope string_scope.

(* ================================================================== *)
(** ** JavaScript values, exceptions and objects *)

Module JS.

(** What [JSON.parse] can produce, plus [undefined] (the result of reading a
    property that is not there). *)
Inductive value : Type :=
| VUndefined
| VNull
| VBool (b : bool)
| VNum (n : float)
| VStr (s : string)
| VArr (elems : list value)
| VObj (props : list (string * value)).

(** An object's own properties, in enumeration order. *)
Definition props : Type := list (string * value).

(** What the modelled code can throw.  [Rejected] is whatever the injected
    [Ai] capability rejects with (transport failure, timeout, cancellation). *)
Inductive exn : Type :=
| TypeError
| SyntaxError
| Error (message : string)
| Rejected (reason : string).

(** A computation that returns or throws (an [async] function resolves or
    rejects). *)
Inductive result (A : Type) : Type :=
| Ok (a : A)
| Throw (e : exn).
Arguments Ok {A} a.
Arguments Throw {A} e.

Definition bind {A B : Type} (m : result A) (k : A -> result B) : result B :=
  match m with
  | Ok a => k a
  | Throw e => Throw e
  end.

Definition float_of_Z (z : Z) : float :=
  SF2Prim (binary_normalize prec emax z 0 false).

Definition float_of_nat (n : nat) : float := float_of_Z (Z.of_nat n).

Definition string_of_nat (n : nat) : string :=
  NilEmpty.string_of_uint (Nat.to_uint n).

(** [typeof v]. *)
Definition typeof (v : value) : string :=
  match v with
  | VUndefined => "undefined"
  | VNull => "object"
  | VBool _ => "boolean"
  | VNum _ => "number"
  | VStr _ => "string"
  | VArr _ => "object"
  | VObj _ => "object"
  end.

(** ToBoolean: what [!v] and [v || w] test. *)
Definition to_boolean (v : value) : bool :=
  match v with
  | VUndefined => false
  | VNull => false
  | VBool b => b
  | VNum n => negb (PrimFloat.is_zero n || PrimFloat.is_nan n)
  | VStr s => negb (s =? "")
  | VArr _ => true
  | VObj _ => true
  end.

(** *** Own properties *)

Fixpoint own (k : string) (o : props) : option value :=
  match o with
  | [] => None
  | (k', v) :: rest => if k' =? k then Some v else own k rest
  end.

Definition has_own (k : string) (o : props) : bool :=
  match own k o with
  | Some _ => true
  | None => false
  end.

Definition is_digit (c : ascii) : bool :=
  let n := nat_of_ascii c in (48 <=? n)%nat && (n <=? 57)%nat.

Definition digit_value (c : ascii) : N := N.of_nat (nat_of_ascii c - 48).

Fixpoint digits_value (acc : N) (s : string) : option N :=
  match s with
  | EmptyString => Some acc
  | String c rest =>
      if is_digit c then digits_value (acc * 10 + digit_value c)%N rest
      else None
  end.

(** A property key is an array index when it is the canonical decimal
    numeral of an integer below 2^32 - 1.  Such keys are enumerated first,
    in ascending order; all other keys follow in creation order. *)
Definition array_index (k : string) : option N :=
  match k with
  | EmptyString => None
  | String c rest =>
      if (c =? "0")%char && negb (rest =? "") then None
      else
        match digits_value 0 k with
        | Some n => if (n <? 4294967295)%N then Some n else None
        | None => None
        end
  end.

Fixpoint replace_own (k : string) (v : value) (o : props) : props :=
  match o with
  | [] => []
  | (k', v') :: rest =>
      if k' =? k then (k, v) :: rest else (k', v') :: replace_own k v rest
  end.

Fixpoint insert_index (i : N) (k : string) (v : value) (o : props) : props :=
  match o with
  | [] => [(k, v)]
  | (k', v') :: rest =>
      match array_index k' with
      | Some j =>
          if (j <? i)%N then (k', v') :: insert_index i k v rest
          else (k, v) :: o
      | None => (k, v) :: o
      end
  end.

(** CreateDataProperty on an ordinary object: an existing key keeps its
    place, a new one goes where the enumeration order puts it. *)
Definition define (k : string) (v : value) (o : props) : props :=
  if has_own k o then replace_own k v o
  else
    match array_index k with
    | Some i => insert_index i k v o
    | None => (o ++ [(k, v)])%list
    end.

Fixpoint string_nth (n : nat) (s : string) : option ascii :=
  match s, n with
  | EmptyString, _ => None
  | String c _, O => Some c
  | String _ rest, S m => string_nth m rest
  end.

(** [v.k] for a data property [k].  Reading a property of [undefined] or
    [null] throws; on every other value a missing key reads as [undefined].
    Inherited members (the methods on the built-in prototypes) are functions
    and not part of [value]: this is [v.k] for keys that none of the
    built-in prototypes defines, which holds for every key the source reads
    this way (classification, urgency, sentiment, impact, actionability,
    signals, confidence, reasoning). *)
Definition get (v : value) (k : string) : result value :=
  match v with
  | VUndefined => Throw TypeError
  | VNull => Throw TypeError
  | VBool _ => Ok VUndefined
  | VNum _ => Ok VUndefined
  | VStr s =>
      if k =? "length" then Ok (VNum (float_of_nat (String.length s)))
      else
        match array_index k with
        | Some i =>
            match string_nth (N.to_nat i) s with
            | Some c => Ok (VStr (String c EmptyString))
            | None => Ok VUndefined
            end
        | None => Ok VUndefined
        end
  | VArr l =>
      if k =? "length" then Ok (VNum (float_of_nat (List.length l)))
      else
        match array_index k with
        | Some i => Ok (nth (N.to_nat i) l VUndefined)
        | None => Ok VUndefined
        end
  | VObj o =>
      match own k o with
      | Some x => Ok x
      | None => Ok VUndefined
      end
  end.

Fixpoint indexed {A : Type} (f : A -> value) (i : nat) (l : list A) : props :=
  match l with
  | [] => []
  | x :: rest => (string_of_nat i, f x) :: indexed f (S i) rest
  end.

(** The own enumerable properties that [{...v}] copies. *)
Definition own_enumerable (v : value) : props :=
  match v with
  | VObj o => o
  | VArr l => indexed (fun x => x) 0 l
  | VStr s => indexed (fun c => VStr (String c EmptyString)) 0 (list_ascii_of_string s)
  | _ => []
  end.

(** [{ ...target, ...source }] where [target] holds the properties written
    so far in the object literal. *)
Definition spread (target : props) (source : value) : props :=
  fold_left (fun acc kv => define (fst kv) (snd kv) acc)
            (own_enumerable source) target.

Definition dquote : ascii := ascii_of_nat 34.

(** Text written with an apostrophe wherever the source has a double quote. *)
Fixpoint quoted (s : string) : string :=
  match s with
  | EmptyString => EmptyString
  | String c rest =>
      String (if (c =? "'")%char then dquote else c) (quoted rest)
  end.

(** *** Regular expressions

    Both patterns of the source have the shape
    [open-bracket, [\s\S]*, close-bracket]: a literal, a greedy star over
    every code unit, a literal.  [String.prototype.match] with a non-global
    pattern returns the leftmost match, and the star gives back code units
    one at a time until the closing literal matches. *)

(** The star and the closing literal, tried at [s]: the star first tries to
    consume the next code unit; only when the rest cannot match does it stop,
    and then the next code unit has to be the closing literal. *)
Fixpoint match_star_then (close : ascii) (s : string) : option string :=
  match s with
  | EmptyString => None
  | String a rest =>
      match match_star_then close rest with
      | Some m => Some (String a m)
      | None => if (a =? close)%char then Some (String a EmptyString) else None
      end
  end.

(** The whole pattern, tried at each start position from the left;
    [Some m] is [match[0]], [None] is the [null] result. *)
Fixpoint regex_match (open close : ascii) (s : string) : option string :=
  match s with
  | EmptyString => None
  | String a rest =>
      if (a =? open)%char then
        match match_star_then close rest with
        | Some m => Some (String a m)
        | None => regex_match open close rest
        end
      else regex_match open close rest
  end.

End JS.

(* ================================================================== *)
(** ** The built-ins the source calls

    [JSON.parse], the conversion of a string to a number (ToNumber on
    strings) and of a number to a string (Number::toString) belong to the
    JavaScript engine, not to this repository.  The pipeline below takes them
    as parameters, so its theorems hold whatever the engine does; this module
    gives an implementation after ECMA-262 and ECMA-404 over code units
    0..255, with which the pipeline is run on concrete responses. *)

Module Runtime.
Import JS.

Definition backslash : ascii := ascii_of_nat 92.

(** *** Decimal numerals to binary64, correctly rounded *)

Definition decimal_to_float (neg : bool) (m : Z) (e : Z) : float :=
  match m with
  | Zpos p =>
      if (0 <=? e)%Z then
        SF2Prim (binary_normalize prec emax
                   ((if neg then Zneg p else Zpos p) * 10 ^ e)%Z 0%Z false)
      else
        SF2Prim (SFdiv prec emax (S754_finite neg p 0%Z)
                   (S754_finite false (Z.to_pos (10 ^ (- e))%Z) 0%Z))
  | _ => SF2Prim (S754_zero neg)
  end.

Fixpoint take_digits (s : string) : string * string :=
  match s with
  | EmptyString => (EmptyString, EmptyString)
  | String c rest =>
      if is_digit c then
        let (d, r) := take_digits rest in (String c d, r)
      else (EmptyString, s)
  end.

Fixpoint Z_of_digits (acc : Z) (s : string) : Z :=
  match s with
  | EmptyString => acc
  | String c rest => Z_of_digits (acc * 10 + Z.of_N (digit_value c))%Z rest
  end.

(** An optional exponent part [e] / [E], sign, digits: its value and what
    follows it; [None] when an exponent marker has no digits after it. *)
Definition take_exponent (s : string) : option (Z * string) :=
  match s with
  | String c rest =>
      if (c =? "e")%char || (c =? "E")%char then
        let (neg, rest1) :=
          match rest with
          | String sg r =>
              if (sg =? "-")%char then (true, r)
              else if (sg =? "+")%char then (false, r)
              else (false, rest)
          | EmptyString => (false, rest)
          end in
        let (d, rest2) := take_digits rest1 in
        if d =? "" then None
        else Some ((if neg then - Z_of_digits 0 d else Z_of_digits 0 d)%Z, rest2)
      else Some (0%Z, s)
  | EmptyString => Some (0%Z, s)
  end.

(** *** JSON.parse *)

Definition is_json_ws (c : ascii) : bool :=
  let n := nat_of_ascii c in
  (n =? 32)%nat || (n =? 9)%nat || (n =? 10)%nat || (n =? 13)%nat.

Fixpoint skip_ws (s : string) : string :=
  match s with
  | EmptyString => EmptyString
  | String c rest => if is_json_ws c then skip_ws rest else s
  end.

Fixpoint strip_prefix (p s : string) : option string :=
  match p, s with
  | EmptyString, _ => Some s
  | String a p', String b s' => if (a =? b)%char then strip_prefix p' s' else None
  | String _ _, EmptyString => None
  end.

(** JSON number: an optional minus sign; an integer part that is [0] or
    starts with a non-zero digit; an optional fraction (a point and at least
    one digit); an optional exponent. *)
Definition parse_number (s : string) : option (float * string) :=
  let (neg, s1) :=
    match s with
    | String c r => if (c =? "-")%char then (true, r) else (false, s)
    | EmptyString => (false, s)
    end in
  let (int, s2) := take_digits s1 in
  match int with
  | EmptyString => None
  | String d more =>
      if (d =? "0")%char && negb (more =? "") then None
      else
        let frac_rest :=
          match s2 with
          | String c r =>
              if (c =? ".")%char then
                let (f, r') := take_digits r in
                if f =? "" then None else Some (f, r')
              else Some (EmptyString, s2)
          | EmptyString => Some (EmptyString, s2)
          end in
        match frac_rest with
        | None => None
        | Some (frac, s3) =>
            match take_exponent s3 with
            | None => None
            | Some (ex, s4) =>
                Some (decimal_to_float neg (Z_of_digits 0 (int ++ frac))
                        (ex - Z.of_nat (String.length frac))%Z, s4)
            end
        end
  end.

Definition hex_value (c : ascii) : option N :=
  let n := nat_of_ascii c in
  if is_digit c then Some (N.of_nat (n - 48))
  else if (97 <=? n)%nat && (n <=? 102)%nat then Some (N.of_nat (n - 87))
  else if (65 <=? n)%nat && (n <=? 70)%nat then Some (N.of_nat (n - 55))
  else None.

(** A [\uXXXX] escape names one code unit.  [string] holds the code units
    0..255 only; an escape above that range has no counterpart here and is
    refused (the one place where this parser is narrower than the engine's). *)
Definition unicode_escape (a b c d : ascii) : option ascii :=
  match hex_value a, hex_value b, hex_value c, hex_value d with
  | Some x, Some y, Some z, Some w =>
      let n := (((x * 16 + y) * 16 + z) * 16 + w)%N in
      if (n <? 256)%N then Some (ascii_of_N n) else None
  | _, _, _, _ => None
  end.

Definition simple_escape (c : ascii) : option ascii :=
  if (c =? dquote)%char then Some dquote
  else if (c =? backslash)%char then Some backslash
  else if (c =? "/")%char then Some "/"%char
  else if (c =? "b")%char then Some (ascii_of_nat 8)
  else if (c =? "f")%char then Some (ascii_of_nat 12)
  else if (c =? "n")%char then Some (ascii_of_nat 10)
  else if (c =? "r")%char then Some (ascii_of_nat 13)
  else if (c =? "t")%char then Some (ascii_of_nat 9)
  else None.

(** The characters of a JSON string after its opening quote, up to and
    including the closing quote. *)
Fixpoint parse_string_body (s : string) : option (string * string) :=
  match s with
  | EmptyString => None
  | String c rest =>
      if (c =? dquote)%char then Some (EmptyString, rest)
      else if (c =? backslash)%char then
        match rest with
        | String e rest1 =>
            if (e =? "u")%char then
              match rest1 with
              | String h1 (String h2 (String h3 (String h4 rest2))) =>
                  match unicode_escape h1 h2 h3 h4, parse_string_body rest2 with
                  | Some u, Some (t, r) => Some (String u t, r)
                  | _, _ => None
                  end
              | _ => None
              end
            else
              match simple_escape e, parse_string_body rest1 with
              | Some u, Some (t, r) => Some (String u t, r)
              | _, _ => None
              end
        | EmptyString => None
        end
      else if (nat_of_ascii c <? 32)%nat then None
      else
        match parse_string_body rest with
        | Some (t, r) => Some (String c t, r)
        | None => None
        end
  end.

Definition parser : Type := string -> option (value * string).

(** The elements of an array after the first one has been announced:
    value, then [,] and another element, or [\]]. *)
Fixpoint parse_elements (n : nat) (pv : parser) (acc : list value) (s : string)
  : option (value * string) :=
  match n with
  | O => None
  | S n' =>
      match pv s with
      | None => None
      | Some (v, rest) =>
          match skip_ws rest with
          | String c rest1 =>
              if (c =? ",")%char then parse_elements n' pv (acc ++ [v])%list rest1
              else if (c =? "]")%char then Some (VArr (acc ++ [v])%list, rest1)
              else None
          | EmptyString => None
          end
      end
  end.

(** The members of an object: string key, [:], value, then [,] and another
    member, or [}].  A repeated key overwrites the earlier value. *)
Fixpoint parse_members (n : nat) (pv : parser) (acc : props) (s : string)
  : option (value * string) :=
  match n with
  | O => None
  | S n' =>
      match skip_ws s with
      | String q rest =>
          if (q =? dquote)%char then
            match parse_string_body rest with
            | None => None
            | Some (k, rest1) =>
                match skip_ws rest1 with
                | String c rest2 =>
                    if (c =? ":")%char then
                      match pv rest2 with
                      | None => None
                      | Some (v, rest3) =>
                          match skip_ws rest3 with
                          | String d rest4 =>
                              if (d =? ",")%char then
                                parse_members n' pv (define k v acc) rest4
                              else if (d =? "}")%char then
                                Some (VObj (define k v acc), rest4)
                              else None
                          | EmptyString => None
                          end
                      end
                    else None
                | EmptyString => None
                end
            end
          else None
      | EmptyString => None
      end
  end.

Fixpoint parse_value (fuel : nat) (s : string) : option (value * string) :=
  match fuel with
  | O => None
  | S fuel' =>
      match skip_ws s with
      | EmptyString => None
      | String c rest as s' =>
          if (c =? "{")%char then
            match skip_ws rest with
            | String d rest1 =>
                if (d =? "}")%char then Some (VObj [], rest1)
                else parse_members (String.length rest) (parse_value fuel') [] rest
            | EmptyString => None
            end
          else if (c =? "[")%char then
            match skip_ws rest with
            | String d rest1 =>
                if (d =? "]")%char then Some (VArr [], rest1)
                else parse_elements (String.length rest) (parse_value fuel') [] rest
            | EmptyString => None
            end
          else if (c =? dquote)%char then
            match parse_string_body rest with
            | Some (t, r) => Some (VStr t, r)
            | None => None
            end
          else if (c =? "t")%char then
            option_map (fun r => (VBool true, r)) (strip_prefix "true" s')
          else if (c =? "f")%char then
            option_map (fun r => (VBool false, r)) (strip_prefix "false" s')
          else if (c =? "n")%char then
            option_map (fun r => (VNull, r)) (strip_prefix "null" s')
          else
            match parse_number s' with
            | Some (x, r) => Some (VNum x, r)
            | None => None
            end
      end
  end.

(** [JSON.parse(text)]: one value, white space around it, nothing else.
    Every level of nesting consumes a code unit, so the length of the text
    bounds the depth. *)
Definition JSON_parse (text : string) : result value :=
  match parse_value (S (String.length text)) text with
  | Some (v, rest) =>
      match skip_ws rest with
      | EmptyString => Ok v
      | String _ _ => Throw SyntaxError
      end
  | None => Throw SyntaxError
  end.

(** *** ToNumber on a string (StringToNumber) *)

Definition is_str_ws (c : ascii) : bool :=
  let n := nat_of_ascii c in
  ((9 <=? n)%nat && (n <=? 13)%nat) || (n =? 32)%nat || (n =? 160)%nat.

Fixpoint trim_left (s : string) : string :=
  match s with
  | EmptyString => EmptyString
  | String c rest => if is_str_ws c then trim_left rest else s
  end.

Definition string_rev (s : string) : string :=
  string_of_list_ascii (rev (list_ascii_of_string s)).

Definition trim (s : string) : string :=
  string_rev (trim_left (string_rev (trim_left s))).

(** StrDecimalLiteral: sign, then [Infinity] or digits with an optional
    point and exponent, at least one digit before the exponent. *)
Definition str_decimal (s : string) : option float :=
  let (neg, s1) :=
    match s with
    | String c r =>
        if (c =? "-")%char then (true, r)
        else if (c =? "+")%char then (false, r)
        else (false, s)
    | EmptyString => (false, s)
    end in
  if s1 =? "Infinity" then Some (if neg then neg_infinity else infinity)
  else
    let (int, s2) := take_digits s1 in
    let (frac, s3) :=
      match s2 with
      | String c r => if (c =? ".")%char then take_digits r else (EmptyString, s2)
      | EmptyString => (EmptyString, s2)
      end in
    if (int =? "") && (frac =? "") then None
    else
      match take_exponent s3 with
      | Some (ex, EmptyString) =>
          Some (decimal_to_float neg (Z_of_digits 0 (int ++ frac))
                  (ex - Z.of_nat (String.length frac))%Z)
      | _ => None
      end.

Fixpoint radix_value (radix : N) (acc : N) (s : string) : option N :=
  match s with
  | EmptyString => Some acc
  | String c rest =>
      match hex_value c with
      | Some d =>
          if (d <? radix)%N then radix_value radix (acc * radix + d)%N rest
          else None
      | None => None
      end
  end.

(** NonDecimalIntegerLiteral: [0x], [0o] or [0b] and at least one digit. *)
Definition str_non_decimal (s : string) : option float :=
  match s with
  | String z (String r (String d more)) =>
      if (z =? "0")%char then
        let radix :=
          if (r =? "x")%char || (r =? "X")%char then Some 16%N
          else if (r =? "o")%char || (r =? "O")%char then Some 8%N
          else if (r =? "b")%char || (r =? "B")%char then Some 2%N
          else None in
        match radix with
        | Some b =>
            option_map (fun n => float_of_Z (Z.of_N n))
                       (radix_value b 0 (String d more))
        | None => None
        end
      else None
  | _ => None
  end.

Definition StringToNumber (s : string) : float :=
  let t := trim s in
  if t =? "" then zero
  else
    match str_non_decimal t with
    | Some x => x
    | None =>
        match str_decimal t with
        | Some x => x
        | None => nan
        end
    end.

(** *** Number::toString (radix 10)

    For a finite non-zero [x = m * 2^e]: the shortest digit string [s] of
    [k] digits and the exponent [n] with [s * 10^(n-k)] rounding to [x], the
    closest such [s] when there are two, laid out as ECMA-262 prescribes. *)

Definition string_of_Z (z : Z) : string :=
  NilZero.string_of_uint (N.to_uint (Z.to_N z)).

Fixpoint zeros (n : nat) : string :=
  match n with
  | O => EmptyString
  | S m => String "0" (zeros m)
  end.

(** [10^n <= num / den]. *)
Definition pow10_le (num den n : Z) : bool :=
  if (0 <=? n)%Z then (den * 10 ^ n <=? num)%Z
  else (den <=? num * 10 ^ (- n))%Z.

(** The [n] with [10^(n-1) <= num / den < 10^n], searched downward. *)
Fixpoint magnitude (fuel : nat) (num den n : Z) : Z :=
  match fuel with
  | O => n
  | S fuel' =>
      if pow10_le num den (n - 1) then n
      else magnitude fuel' num den (n - 1)%Z
  end.

(** The digits [s] and exponent [n] for [k] digits, when some [k]-digit
    numeral rounds to [x]. *)
Definition digits_for (x : float) (num den n0 : Z) (k : Z) : option (Z * Z) :=
  let p := (k - n0)%Z in
  let N' := if (0 <=? p)%Z then (num * 10 ^ p)%Z else num in
  let D' := if (0 <=? p)%Z then den else (den * 10 ^ (- p))%Z in
  let lo := (N' / D')%Z in
  let r := (N' mod D')%Z in
  let hi := (lo + 1)%Z in
  let ok c := PrimFloat.eqb (decimal_to_float false c (n0 - k)) x in
  let up := if (hi =? 10 ^ k)%Z then (10 ^ (k - 1), n0 + 1)%Z else (hi, n0) in
  match ok lo, ok hi with
  | true, true =>
      if (2 * r <? D')%Z then Some (lo, n0)
      else if (D' <? 2 * r)%Z then Some up
      else if Z.even lo then Some (lo, n0) else Some up
  | true, false => Some (lo, n0)
  | false, true => Some up
  | false, false => None
  end.

Fixpoint shortest (fuel : nat) (x : float) (num den n0 : Z) (k : Z) : Z * Z * Z :=
  match fuel with
  | O => (0, 0, k)%Z
  | S fuel' =>
      match digits_for x num den n0 k with
      | Some (s, n) => (s, n, k)
      | None => shortest fuel' x num den n0 (k + 1)%Z
      end
  end.

Definition layout (s n k : Z) : string :=
  let ds := string_of_Z s in
  if ((k <=? n) && (n <=? 21))%Z then ds ++ zeros (Z.to_nat (n - k))
  else if ((0 <? n) && (n <=? 21))%Z then
    substring 0 (Z.to_nat n) ds ++ "." ++
    substring (Z.to_nat n) (Z.to_nat (k - n)) ds
  else if ((-6 <? n) && (n <=? 0))%Z then "0." ++ zeros (Z.to_nat (- n)) ++ ds
  else
    let e := (n - 1)%Z in
    let ex := (if (e <? 0)%Z then "-" else "+") ++ string_of_Z (Z.abs e) in
    if (k =? 1)%Z then ds ++ "e" ++ ex
    else substring 0 1 ds ++ "." ++ substring 1 (Z.to_nat (k - 1)) ds ++ "e" ++ ex.

Definition NumberToString (x : float) : string :=
  match Prim2SF x with
  | S754_nan => "NaN"
  | S754_zero _ => "0"
  | S754_infinity neg => if neg then "-Infinity" else "Infinity"
  | S754_finite neg m e =>
      let num := (Zpos m * 2 ^ Z.max e 0)%Z in
      let den := (2 ^ Z.max (- e) 0)%Z in
      let n0 := magnitude 640 num den 310 in
      let '(s, n, k) := shortest 17 (abs x) num den n0 1 in
      (if neg then "-" else "") ++ layout s n k
  end.

End Runtime.

(* ================================================================== *)
(** ** Data of [src/db.ts] and [src/kv.ts] *)

Module Db.

Record Feedback : Type := {
  id : string;
  source : string;
  title : string;
  content : string;
  label : option string;
  author : option string;
  created_at : string;
  raw_metadata : option string
}.

End Db.

Module Kv.

Module ImmediateEngineering.
Record t : Type := { urgency_min : float; impact_min : float }.
End ImmediateEngineering.

Module QuickWinBacklog.
Record t : Type := { urgency_max : float; actionability_min : float }.
End QuickWinBacklog.

Module TrustRisk.
Record t : Type := { sentiment_max : float; impact_min : float }.
End TrustRisk.

Record RoutingRules : Type := {
  immediate_engineering : ImmediateEngineering.t;
  quick_win_backlog : QuickWinBacklog.t;
  trust_risk : TrustRisk.t
}.

Record UrgencyKeywords : Type := {
  critical : list string;
  high : list string;
  low : list string
}.

Record ImpactSignals : Type := {
  enterprise : list string;
  production : list string;
  single_user : list string
}.

Record ClassificationRules : Type := {
  routing_rules : RoutingRules;
  urgency_keywords : UrgencyKeywords;
  impact_signals : ImpactSignals
}.

(** [defaultRules] of [ConfigStore.getClassificationRules]. *)
Definition defaultRules : ClassificationRules := {|
  routing_rules := {|
    immediate_engineering :=
      {| ImmediateEngineering.urgency_min := 4; ImmediateEngineering.impact_min := 4 |};
    quick_win_backlog :=
      {| QuickWinBacklog.urgency_max := 2; QuickWinBacklog.actionability_min := 4 |};
    trust_risk :=
      {| TrustRisk.sentiment_max := -1; TrustRisk.impact_min := 3 |}
  |};
  urgency_keywords := {|
    critical := ["security"; "vulnerability"; "cannot install"; "data loss";
                 "outage"; "production down"; "breach"; "exploit"];
    high := ["production"; "enterprise"; "fails consistently"; "no workaround";
             "blocked"; "critical"; "urgent"; "forever"; "never recovers"];
    low := ["feature request"; "nice to have"; "suggestion"; "question";
            "wondering"; "curious"; "would be nice"]
  |};
  impact_signals := {|
    enterprise := ["our organization"; "our team"; "enterprise";
                   "active directory"; "domain-joined"; "cluster";
                   "our company"; "multiple users"];
    production := ["production"; "live"; "customers affected"; "revenue";
                   "sla"; "downtime"; "outage"];
    single_user := ["my home"; "personal"; "hobby"; "just me"; "learning";
                    "testing"; "playing around"]
  |}
|}.

End Kv.

(* ================================================================== *)
(** ** The specification's vocabulary *)

Import JS Db Kv.

(** The parameter type of [determineRoute]: four numbers. *)
Record ClassificationVector : Type := {
  urgency : float;
  sentiment : float;
  impact : float;
  actionability : float
}.

Definition vector_value (c : ClassificationVector) : value :=
  VObj [("urgency", VNum (urgency c)); ("sentiment", VNum (sentiment c));
        ("impact", VNum (impact c)); ("actionability", VNum (actionability c))].

(** [x >= y] and [x <= y] on numbers. *)
Definition ge (x y : float) : bool := PrimFloat.leb y x.
Definition le (x y : float) : bool := PrimFloat.leb x y.

(** The three routing predicates, in the order the specification lists them. *)
Definition predicates (c : ClassificationVector) (rules : ClassificationRules)
  : list (string * bool) :=
  let r := routing_rules rules in
  [ ("immediate_engineering",
     ge (urgency c) (ImmediateEngineering.urgency_min (immediate_engineering r))
     && ge (impact c) (ImmediateEngineering.impact_min (immediate_engineering r)));
    ("quick_win_backlog",
     le (urgency c) (QuickWinBacklog.urgency_max (quick_win_backlog r))
     && ge (actionability c) (QuickWinBacklog.actionability_min (quick_win_backlog r)));
    ("trust_risk",
     le (sentiment c) (TrustRisk.sentiment_max (trust_risk r))
     && ge (impact c) (TrustRisk.impact_min (trust_risk r))) ].

Definition matched_labels (c : ClassificationVector) (rules : ClassificationRules)
  : list string :=
  map fst (filter snd (predicates c rules)).

(** The route the specification assigns: the matched labels joined by
    commas, or the sentinel when there is none. *)
Definition route_string (c : ClassificationVector) (rules : ClassificationRules)
  : string :=
  match matched_labels c rules with
  | [] => "standard_backlog"
  | l => concat "," l
  end.

(** The vector of the conservative default. *)
Definition default_vector : ClassificationVector :=
  {| urgency := 3; sentiment := 0; impact := 3; actionability := 2 |}.

(** The classification record of the fallback path for a feedback item. *)
Definition fallback_classification (feedback : Feedback) (rules : ClassificationRules)
  : props :=
  [("feedback_id", VStr (id feedback));
   ("urgency", VNum 3); ("sentiment", VNum 0);
   ("impact", VNum 3); ("actionability", VNum 2);
   ("route", VStr (route_string default_vector rules));
   ("confidence", VNum 0.3);
   ("reasoning", VStr "Failed to parse AI response, using conservative defaults")].

(** A parsed value has a classification object whose urgency is a number. *)
Definition has_numeric_urgency (parsed : value) : Prop :=
  exists o n, get parsed "classification" = Ok (VObj o)
              /\ own "urgency" o = Some (VNum n).

(** The keys of an object are pairwise distinct. *)
Fixpoint unique_keys (o : props) : bool :=
  match o with
  | [] => true
  | (k, _) :: rest => negb (has_own k rest) && unique_keys rest
  end.

(** Every object inside a value has pairwise distinct keys, as every
    JavaScript object does. *)
Fixpoint well_formed (v : value) : bool :=
  match v with
  | VArr l => forallb well_formed l
  | VObj o => unique_keys o && forallb (fun kv => well_formed (snd kv)) o
  | _ => true
  end.

(** Position of the first and of the last occurrence of a code unit. *)
Fixpoint first_index (c : ascii) (s : string) : option nat :=
  match s with
  | EmptyString => None
  | String a rest =>
      if (a =? c)%char then Some 0 else option_map S (first_index c rest)
  end.

Fixpoint last_index (c : ascii) (s : string) : option nat :=
  match s with
  | EmptyString => None
  | String a rest =>
      match last_index c rest with
      | Some j => Some (S j)
      | None => if (a =? c)%char then Some 0 else None
      end
  end.

(** The text from the first [open] to the last [close], both included,
    when the last [close] comes after the first [open]. *)
Definition delimited_text (open close : ascii) (s : string) : option string :=
  match first_index open s, last_index close s with
  | Some i, Some j =>
      if (i <? j)%nat then Some (substring i (j - i + 1) s) else None
  | _, _ => None
  end.

(** A feedback item cut down to what [extractThemes] reads of it. *)
Definition clip (f : Feedback) : Feedback := {|
  id := id f;
  source := source f;
  title := title f;
  content := substring 0 200 (content f);
  label := label f;
  author := author f;
  created_at := created_at f;
  raw_metadata := raw_metadata f
|}.

(* ================================================================== *)
(** ** [FeedbackClassifier] of [src/ai.ts] *)

Notation "x <- m ;; k" := (bind m (fun x => k))
  (at level 61, m at next level, right associativity).

(** One chat message handed to the model. *)
Module Chat.
Record Message : Type := { role : string; content : string }.
End Chat.

(** The injected [Ai] capability: [ai.run(model, { messages })] resolves to
    an object whose [response] field is the model's text, or rejects. *)
Definition Ai : Type := string -> list Chat.Message -> result string.

(** One argument of a [console.error] call, and the log: one entry per call. *)
Inductive log_arg : Type :=
| LStr (s : string)
| LExn (e : exn).

Definition console : Type := list (list log_arg).

(** What [classifyFeedback] resolves to. *)
Record Classified : Type := {
  classification : props;
  signals : list props
}.

Definition newline : string := String (ascii_of_nat 10) EmptyString.

Module FeedbackClassifier.
Section Engine.

(** The engine's built-ins (see [Runtime]). *)
Variable json_parse : string -> result value.
Variable string_to_number : string -> float.
Variable number_to_string : float -> string.

(** *** Coercions of the relational operators *)

(** ToString.  An array joins its elements with commas, [undefined] and
    [null] elements giving the empty string.  An object built by
    [JSON.parse] inherits [Object.prototype.toString] unless it has an own
    [toString] property, which is data and cannot be called: then no method
    yields a primitive. *)
Fixpoint to_string (v : value) : result string :=
  match v with
  | VUndefined => Ok "undefined"
  | VNull => Ok "null"
  | VBool b => Ok (if b then "true" else "false")
  | VNum n => Ok (number_to_string n)
  | VStr s => Ok s
  | VArr l =>
      (fix join (l : list value) : result string :=
         match l with
         | [] => Ok ""
         | x :: rest =>
             sx <- match x with
                   | VUndefined => Ok ""
                   | VNull => Ok ""
                   | _ => to_string x
                   end ;;
             match rest with
             | [] => Ok sx
             | _ :: _ => sr <- join rest ;; Ok (sx ++ "," ++ sr)
             end
         end) l
  | VObj o => if has_own "toString" o then Throw TypeError else Ok "[object Object]"
  end.

(** ToNumber; arrays and objects go through ToPrimitive, which for values
    built by [JSON.parse] ends in their string form. *)
Definition to_number (v : value) : result float :=
  match v with
  | VUndefined => Ok nan
  | VNull => Ok zero
  | VBool b => Ok (if b then one else zero)
  | VNum n => Ok n
  | VStr s => Ok (string_to_number s)
  | VArr _ => s <- to_string v ;; Ok (string_to_number s)
  | VObj _ => s <- to_string v ;; Ok (string_to_number s)
  end.

(** [x >= y] and [x <= y] with a number on the right: false as soon as one
    side is NaN. *)
Definition js_ge (x : value) (y : float) : result bool :=
  nx <- to_number x ;; Ok (PrimFloat.leb y nx).

Definition js_le (x : value) (y : float) : result bool :=
  nx <- to_number x ;; Ok (PrimFloat.leb nx y).

(** [a && b] on conditions: [b] is evaluated only when [a] holds. *)
Definition and_then (a b : result bool) : result bool :=
  x <- a ;; if x then b else Ok false.

(** *** determineRoute *)

Definition determineRoute (classification : value) (rules : ClassificationRules)
  : result string :=
  let routes : list string := [] in
  immediate <-
    and_then
      (u <- get classification "urgency" ;;
       js_ge u (ImmediateEngineering.urgency_min
                  (immediate_engineering (routing_rules rules))))
      (i <- get classification "impact" ;;
       js_ge i (ImmediateEngineering.impact_min
                  (immediate_engineering (routing_rules rules)))) ;;
  let routes :=
    if immediate then (routes ++ ["immediate_engineering"])%list else routes in
  quick <-
    and_then
      (u <- get classification "urgency" ;;
       js_le u (QuickWinBacklog.urgency_max
                  (quick_win_backlog (routing_rules rules))))
      (a <- get classification "actionability" ;;
       js_ge a (QuickWinBacklog.actionability_min
                  (quick_win_backlog (routing_rules rules)))) ;;
  let routes :=
    if quick then (routes ++ ["quick_win_backlog"])%list else routes in
  trust <-
    and_then
      (s <- get classification "sentiment" ;;
       js_le s (TrustRisk.sentiment_max (trust_risk (routing_rules rules))))
      (i <- get classification "impact" ;;
       js_ge i (TrustRisk.impact_min (trust_risk (routing_rules rules)))) ;;
  let routes :=
    if trust then (routes ++ ["trust_risk"])%list else routes in
  Ok (if (0 <? List.length routes)%nat then concat "," routes
      else "standard_backlog").

(** *** parseAIResponse *)

(** The object returned from the [catch] block. *)
Definition conservative_default : value :=
  VObj [("classification",
         VObj [("urgency", VNum 3); ("sentiment", VNum 0);
               ("impact", VNum 3); ("actionability", VNum 2)]);
        ("signals", VArr []);
        ("confidence", VNum 0.3);
        ("reasoning",
         VStr "Failed to parse AI response, using conservative defaults")].

(** The condition of the validation [if]:
    [!parsed.classification || typeof parsed.classification.urgency !== "number"]. *)
Definition invalid_structure (parsed : value) : result bool :=
  c <- get parsed "classification" ;;
  if negb (to_boolean c) then Ok true
  else
    u <- get c "urgency" ;;
    Ok (negb (typeof u =? "number")).

(** The [try] block. *)
Definition try_parse (response : string) : result value :=
  match regex_match "{" "}" response with
  | None => Throw (Error "No JSON found in response")
  | Some jsonMatch =>
      parsed <- json_parse jsonMatch ;;
      invalid <- invalid_structure parsed ;;
      if invalid then Throw (Error "Invalid classification structure")
      else Ok parsed
  end.

Definition parseAIResponse (response : string) (out : console) : value * console :=
  match try_parse response with
  | Ok parsed => (parsed, out)
  | Throw e =>
      (conservative_default,
       (out ++ [[LStr "Failed to parse AI response:"; LExn e;
                 LStr "Response:"; LStr response]])%list)
  end.

(** *** buildClassificationPrompt *)

Definition buildClassificationPrompt (feedback : Feedback)
  (rules : ClassificationRules) : string :=
  "
Analyze this feedback and classify it according to our framework.

## Feedback
- **Source**: " ++
  source feedback ++
  "
- **Title**: " ++
  title feedback ++
  "
- **Label**: " ++
  match label feedback with
  | Some l => if l =? "" then "None" else l
  | None => "None"
  end ++
  "
- **Content**: " ++
  content feedback ++
  "

## Classification Framework

### Urgency (1-5)
- 1: Low - General questions, nice-to-haves
- 2: Moderate - Minor friction, workarounds exist
- 3: High - Functionality degraded, needs attention
- 4: Severe - Production affected, no workaround (even if reported calmly)
- 5: Critical - Security risk, installation blocked, complete outage

**Critical keywords**: " ++
  concat ", " (critical (urgency_keywords rules)) ++
  "
**High keywords**: " ++
  concat ", " (high (urgency_keywords rules)) ++
  "
**Low keywords**: " ++
  concat ", " (low (urgency_keywords rules)) ++
  quoted "

IMPORTANT: Security concerns should be minimum Urgency 3. Installation failures should be minimum Urgency 4. Calm tone does NOT reduce urgency - score based on technical severity.

### Sentiment (-2 to +2)
- -2: Frustrated (explicit frustration, strong negative language, ALL CAPS, 'ridiculous', 'unacceptable')
- -1: Dissatisfied (pain points, mild complaints, 'a pain', 'frustrating')
- 0: Neutral (factual reporting, no emotional indicators)
- +1: Appreciative (thanks, acknowledges good work, 'great product')
- +2: Enthusiastic (strong praise, advocacy)

### Impact (1-5)
- 1: Minimal - Single user curiosity
- 2: Low - Individual inconvenience, easy workaround
- 3: Moderate - Team/environment affected, painful workaround
- 4: High - Production degraded, enterprise environment, blocks adoption
- 5: Severe - Complete breakage, affects all users, security/data risk

**Enterprise signals**: " ++
  concat ", " (enterprise (impact_signals rules)) ++
  "
**Production signals**: " ++
  concat ", " (production (impact_signals rules)) ++
  "
**Single user signals**: " ++
  concat ", " (single_user (impact_signals rules)) ++
  quoted "

### Actionability (1-5)
- 1: Unclear - Vague, missing context
- 2: Needs Info - Some detail but requires follow-up
- 3: Partially Actionable - Clear problem, uncertain solution
- 4: Actionable - Clear problem + environment + steps
- 5: Immediately Actionable - Clear bug with repro steps, obvious fix path

## Response Format
Return ONLY valid JSON (no markdown, no explanation):
{
  'classification': {
    'urgency': <1-5>,
    'sentiment': <-2 to 2>,
    'impact': <1-5>,
    'actionability': <1-5>
  },
  'signals': [
    {'signal_type': 'feature_area', 'signal_value': '<area like tunnels, installation, authentication>', 'confidence': <0-1>},
    {'signal_type': 'user_segment', 'signal_value': '<segment like enterprise, hobbyist, developer>', 'confidence': <0-1>},
    {'signal_type': 'issue_category', 'signal_value': '<category like bug, feature_request, question, documentation>', 'confidence': <0-1>}
  ],
  'confidence': <0-1>,
  'reasoning': '<1-2 sentence explanation of scores>'
}
".

(** The messages of the classification call. *)
Definition classification_messages (feedback : Feedback)
  (rules : ClassificationRules) : list Chat.Message :=
  [ {| Chat.role := "system";
       Chat.content := "You are a product analyst for cloudflare/cloudflared, an infrastructure tool where reliability and security are critical. Analyze user feedback and return structured JSON only. No explanations outside the JSON." |};
    {| Chat.role := "user";
       Chat.content := buildClassificationPrompt feedback rules |} ].

(** *** classifyFeedback *)

(** [result.signals.map(f)]: only an array has a callable [map]; reading it
    from [undefined] or [null], or calling what any other value gives for
    it, throws. *)
Definition array_map (v : value) (f : value -> props) : result (list props) :=
  match v with
  | VArr l => Ok (map f l)
  | _ => Throw TypeError
  end.

(** The [return] statement: the classification record and the signals. *)
Definition build (feedback : Feedback) (result : value) (route : string)
  : JS.result Classified :=
  c <- get result "classification" ;;
  confidence <- get result "confidence" ;;
  reasoning <- get result "reasoning" ;;
  s <- get result "signals" ;;
  sigs <- array_map s (fun s => spread [("feedback_id", VStr (id feedback))] s) ;;
  Ok {| classification :=
          define "reasoning" reasoning
            (define "confidence" confidence
               (define "route" (VStr route)
                  (spread [("feedback_id", VStr (id feedback))] c)));
        signals := sigs |}.

(** The statements after the model call, on the parsed result. *)
Definition assemble (feedback : Feedback) (rules : ClassificationRules)
  (result : value) : JS.result Classified :=
  c <- get result "classification" ;;
  route <- determineRoute c rules ;;
  build feedback result route.

Definition classifyFeedback (ai : Ai) (feedback : Feedback)
  (rules : ClassificationRules) (out : console)
  : JS.result Classified * console :=
  match ai "@cf/meta/llama-3.1-70b-instruct" (classification_messages feedback rules) with
  | Throw e => (Throw e, out)
  | Ok response =>
      let (result, out') := parseAIResponse response out in
      (assemble feedback rules result, out')
  end.

(** *** extractThemes *)

Definition feedbackSummary (feedbackItems : list Feedback) : string :=
  concat newline
    (map (fun f => "- " ++ title f ++ ": " ++ substring 0 200 (content f))
         (firstn 20 feedbackItems)).

Definition themes_prompt (feedbackItems : list Feedback) (limit : float) : string :=
  "
Analyze these feedback items and extract the " ++
  number_to_string limit ++
  " most common themes or topics.

Feedback:
" ++
  feedbackSummary feedbackItems ++
  quoted "

Return ONLY a JSON array of theme strings, e.g.: ['theme1', 'theme2', 'theme3']
".

Definition themes_messages (feedbackItems : list Feedback) (limit : float)
  : list Chat.Message :=
  [ {| Chat.role := "system";
       Chat.content := "Extract themes from feedback. Return only JSON array." |};
    {| Chat.role := "user";
       Chat.content := themes_prompt feedbackItems limit |} ].

(** The [try] block of [extractThemes]: [Ok None] when control falls out of
    it without returning. *)
Definition try_themes (response : string) : JS.result (option value) :=
  match regex_match "[" "]" response with
  | Some m => v <- json_parse m ;; Ok (Some v)
  | None => Ok None
  end.

(** [limit] is [None] when the caller leaves it out (the default is 5). *)
Definition default_limit (limit : option float) : float :=
  match limit with
  | Some n => n
  | None => 5%float
  end.

Definition extractThemes (ai : Ai) (feedbackItems : list Feedback)
  (limit : option float) (out : console) : JS.result value * console :=
  let limit := default_limit limit in
  if (List.length feedbackItems =? 0)%nat then (Ok (VArr []), out)
  else
    match ai "@cf/meta/llama-3.1-8b-instruct" (themes_messages feedbackItems limit) with
    | Throw e => (Throw e, out)
    | Ok response =>
        match try_themes response with
        | Ok (Some themes) => (Ok themes, out)
        | Ok None => (Ok (VArr []), out)
        | Throw e =>
            (Ok (VArr []), (out ++ [[LStr "Failed to parse themes:"; LExn e]])%list)
        end
    end.

(** *** Model output the pipeline cannot use

    No text from a first opening brace to a last closing brace, or such a
    text that [JSON.parse] rejects, or a parsed value without a
    classification object with a numeric urgency. *)
Definition malformed (response : string) : Prop :=
  delimited_text "{" "}" response = None
  \/ (exists m e, delimited_text "{" "}" response = Some m
                  /\ json_parse m = Throw e)
  \/ (exists m parsed, delimited_text "{" "}" response = Some m
                       /\ json_parse m = Ok parsed
                       /\ ~ has_numeric_urgency parsed).

End Engine.
End FeedbackClassifier.

Import FeedbackClassifier.

(** The pipeline on the reference built-ins. *)
Definition classify : Ai -> Feedback -> ClassificationRules -> console
  -> JS.result Classified * console :=
  classifyFeedback Runtime.JSON_parse Runtime.StringToNumber Runtime.NumberToString.

Definition route : value -> ClassificationRules -> JS.result string :=
  determineRoute Runtime.StringToNumber Runtime.NumberToString.

Definition themes : Ai -> list Feedback -> option float -> console
  -> JS.result value * console :=
  extractThemes Runtime.JSON_parse Runtime.NumberToString.

Definition sample_feedback : Feedback := {|
  id := "gh-001";
  source := "github";
  title := "Tunnel drops every hour";
  content := "The connection resets after sixty minutes in production.";
  label := Some "bug";
  author := None;
  created_at := "2024-01-15T10:00:00Z";
  raw_metadata := None
|}.

(** A stubbed model that answers every request with [text]. *)
Definition answering (text : string) : Ai := fun _ _ => Ok text.

(** A model call that fails in transport. *)
Definition failing (reason : string) : Ai := fun _ _ => Throw (Rejected reason).

(** A response as the prompt asks for it, with prose around the object. *)
Definition well_formed_response : string :=
  quoted "Here is the analysis: {'classification': {'urgency': 5, 'sentiment': -2, 'impact': 5, 'actionability': 3}, 'signals': [{'signal_type': 'feature_area', 'signal_value': 'tunnels', 'confidence': 0.8}, {'signal_type': 'issue_category', 'signal_value': 'bug', 'confidence': 0.7}], 'confidence': 0.9, 'reasoning': 'text'} Let me know.".

(** The same classification, with a signal object that names an identifier
    of its own. *)
Definition foreign_signal_response : string :=
  quoted "{'classification': {'urgency': 5, 'sentiment': -2, 'impact': 5, 'actionability': 3}, 'signals': [{'feedback_id': 'gh-999', 'signal_type': 'feature_area', 'signal_value': 'tunnels'}, {'signal_type': 'issue_category', 'signal_value': 'bug'}], 'confidence': 0.9, 'reasoning': 'text'}".

(** A response whose classification object names an identifier as well. *)
Definition foreign_id_response : string :=
  quoted "{'classification': {'feedback_id': 'gh-999', 'urgency': 4, 'sentiment': 0, 'impact': 2, 'actionability': 3}, 'signals': [{'feedback_id': 'gh-998', 'signal_type': 'user_segment', 'signal_value': 'enterprise'}, {'signal_type': 'issue_category', 'signal_value': 'bug'}], 'confidence': 0.5, 'reasoning': 'r'}".

(** A response with a numeric urgency and nothing usable on the other axes. *)
Definition unchecked_axes_response : string :=
  quoted "{'classification': {'urgency': 5, 'sentiment': 'angry', 'impact': 99}, 'signals': []}".

(* ================================================================== *)
(** ** More built-ins: [toFixed], [JSON.stringify], [includes] *)

(** [s.includes(search)]: [search] occurs in [s]. *)
Fixpoint includes (s search : string) : bool :=
  if prefix search s then true
  else
    match s with
    | EmptyString => false
    | String _ rest => includes rest search
    end.

Module Format.
Import JS.

(** [x.toFixed(1)] after ECMA-262: non-finite values print as Number::toString
    does; a magnitude of 10^21 or more likewise; otherwise the integer [n]
    with [n / 10] closest to the magnitude (the larger one on a tie), with
    one digit after the point. *)
Definition toFixed1 (x : float) : string :=
  match Prim2SF x with
  | S754_nan => "NaN"
  | S754_infinity neg => if neg then "-Infinity" else "Infinity"
  | S754_zero _ => "0.0"
  | S754_finite neg m e =>
      let num := (Zpos m * 2 ^ Z.max e 0)%Z in
      let den := (2 ^ Z.max (- e) 0)%Z in
      let sign := if neg then "-" else "" in
      if (10 ^ 21 * den <=? num)%Z then
        sign ++ Runtime.NumberToString (abs x)
      else
        let n := ((20 * num + den) / (2 * den))%Z in
        let digits := Runtime.string_of_Z n in
        let digits :=
          if (String.length digits <=? 1)%nat then "0" ++ digits else digits in
        let k := String.length digits in
        sign ++ substring 0 (k - 1) digits ++ "." ++ substring (k - 1) 1 digits
  end.

Definition hex_digit (n : nat) : ascii :=
  ascii_of_nat (if (n <? 10)%nat then 48 + n else 87 + n).

(** QuoteJSONString without the surrounding quotes. *)
Fixpoint escape (s : string) : string :=
  match s with
  | EmptyString => EmptyString
  | String c rest =>
      let n := nat_of_ascii c in
      (if (n =? 34)%nat then String Runtime.backslash (String dquote EmptyString)
       else if (n =? 92)%nat then String Runtime.backslash (String Runtime.backslash EmptyString)
       else if (n =? 8)%nat then String Runtime.backslash "b"
       else if (n =? 9)%nat then String Runtime.backslash "t"
       else if (n =? 10)%nat then String Runtime.backslash "n"
       else if (n =? 12)%nat then String Runtime.backslash "f"
       else if (n =? 13)%nat then String Runtime.backslash "r"
       else if (n <? 32)%nat then
         String Runtime.backslash
           ("u00" ++ String (hex_digit (n / 16)) (String (hex_digit (n mod 16)) EmptyString))
       else String c EmptyString)
      ++ escape rest
  end.

Definition quote (s : string) : string :=
  String dquote (escape s ++ String dquote EmptyString).

Definition is_finite (x : float) : bool :=
  match Prim2SF x with
  | S754_zero _ => true
  | S754_finite _ _ _ => true
  | _ => false
  end.

(** SerializeJSONProperty without a gap.  [None] is the [undefined] result:
    the property is left out of an object, and printed as [null] in an
    array. *)
Fixpoint serialize (v : value) : option string :=
  match v with
  | VUndefined => None
  | VNull => Some "null"
  | VBool b => Some (if b then "true" else "false")
  | VNum n => Some (if is_finite n then Runtime.NumberToString n else "null")
  | VStr s => Some (quote s)
  | VArr l =>
      Some ("[" ++
            concat ","
              ((fix elements (l : list value) : list string :=
                  match l with
                  | [] => []
                  | x :: rest =>
                      match serialize x with
                      | Some t => t
                      | None => "null"
                      end :: elements rest
                  end) l)
            ++ "]")
  | VObj o =>
      Some ("{" ++
            concat ","
              ((fix members (o : list (string * value)) : list string :=
                  match o with
                  | [] => []
                  | (k, x) :: rest =>
                      match serialize x with
                      | Some t => (quote k ++ ":" ++ t) :: members rest
                      | None => members rest
                      end
                  end) o)
            ++ "}")
  end.

(** What a template literal prints for [JSON.stringify(v)]. *)
Definition stringify_text (v : value) : string :=
  match serialize v with
  | Some t => t
  | None => "undefined"
  end.

End Format.

(* ================================================================== *)
(** ** [FeedbackClassifier.generatePMSummary] of [src/ai.ts] *)

Module Summary.
Section Engine.

(** Number::toString, the text a template literal prints for
    [JSON.stringify(v)], and [x.toFixed(1)] (see [Runtime] and [Format]). *)
Variable number_to_string : float -> string.
Variable stringify_text : value -> string.
Variable to_fixed : float -> string.

(** The filter callback [f.route?.includes(label)].  Reading [route] from
    [undefined] or [null] throws; a missing or [null] route ends the chain
    with [undefined], which the filter takes as false; a string is searched
    for the label as a substring, an array for an element equal to it; any
    other route has no callable [includes]. *)
Definition route_includes (f : value) (label : string) : result bool :=
  r <- get f "route" ;;
  match r with
  | VUndefined => Ok false
  | VNull => Ok false
  | VStr s => Ok (includes s label)
  | VArr l =>
      Ok (existsb (fun x => match x with
                            | VStr t => t =? label
                            | _ => false
                            end) l)
  | VBool _ => Throw TypeError
  | VNum _ => Throw TypeError
  | VObj _ => Throw TypeError
  end.

(** [feedbackItems.filter(f => f.route?.includes(label))]. *)
Fixpoint filter_by_route (label : string) (items : list value)
  : result (list value) :=
  match items with
  | [] => Ok []
  | f :: rest =>
      keep <- route_includes f label ;;
      kept <- filter_by_route label rest ;;
      Ok (if keep then f :: kept else kept)
  end.

(** [... .slice(0, 5)]. *)
Definition bucket (label : string) (items : list value) : result (list value) :=
  kept <- filter_by_route label items ;;
  Ok (firstn 5 kept).

(** [${v.k}] in a template literal. *)
Definition field (v : value) (k : string) : result string :=
  x <- get v k ;; FeedbackClassifier.to_string number_to_string x.

(** [metrics.averages?.k?.toFixed(1) || "N/A"]. *)
Definition average (metrics : value) (k : string) : result string :=
  a <- get metrics "averages" ;;
  match a with
  | VUndefined => Ok "N/A"
  | VNull => Ok "N/A"
  | _ =>
      u <- get a k ;;
      match u with
      | VUndefined => Ok "N/A"
      | VNull => Ok "N/A"
      | VNum n => let s := to_fixed n in Ok (if s =? "" then "N/A" else s)
      | _ => Throw TypeError
      end
  end.

Fixpoint map_lines (line : value -> result string) (items : list value)
  : result (list string) :=
  match items with
  | [] => Ok []
  | f :: rest =>
      l <- line f ;;
      ls <- map_lines line rest ;;
      Ok (l :: ls)
  end.

(** [items.length > 0 ? items.map(line).join("\n") : "None"]. *)
Definition section_text (line : value -> result string) (items : list value)
  : result string :=
  if (0 <? List.length items)%nat then
    ls <- map_lines line items ;; Ok (concat newline ls)
  else Ok "None".

Definition immediate_line (f : value) : result string :=
  s <- field f "source" ;;
  t <- field f "title" ;;
  u <- field f "urgency" ;;
  i <- field f "impact" ;;
  Ok ("- [" ++ s ++ "] " ++ t ++ " (Urgency:" ++ u ++ " Impact:" ++ i ++ ")").

Definition trust_line (f : value) : result string :=
  s <- field f "source" ;;
  t <- field f "title" ;;
  n <- field f "sentiment" ;;
  i <- field f "impact" ;;
  Ok ("- [" ++ s ++ "] " ++ t ++ " (Sentiment:" ++ n ++ " Impact:" ++ i ++ ")").

Definition quick_line (f : value) : result string :=
  s <- field f "source" ;;
  t <- field f "title" ;;
  a <- field f "actionability" ;;
  Ok ("- [" ++ s ++ "] " ++ t ++ " (Actionability:" ++ a ++ ")").

(** The prompt, from the three buckets. *)
Definition summary_prompt (immediateEngineering trustRisks quickWins : list value)
  (metrics : value) (periodDescription : string) : result string :=
  total <- field metrics "total" ;;
  by_route <- get metrics "by_route" ;;
  by_source <- get metrics "by_source" ;;
  avg_urgency <- average metrics "avg_urgency" ;;
  avg_sentiment <- average metrics "avg_sentiment" ;;
  avg_impact <- average metrics "avg_impact" ;;
  immediate <- section_text immediate_line immediateEngineering ;;
  trust <- section_text trust_line trustRisks ;;
  quick <- section_text quick_line quickWins ;;
  Ok ("
You are a senior product analyst. Generate a concise, actionable PM summary.

## Period: " ++ periodDescription ++ "

## Metrics
- Total feedback items: " ++ total ++ "
- By route: " ++ stringify_text by_route ++ "
- By source: " ++ stringify_text by_source ++ "
- Averages: Urgency " ++ avg_urgency ++ ", Sentiment " ++ avg_sentiment ++ ", Impact " ++ avg_impact ++ "

## High Priority Items (Immediate Engineering)
" ++ immediate ++ "

## Trust Risks (Frustrated users with significant impact)
" ++ trust ++ "

## Quick Wins (Low urgency, high actionability)
" ++ quick ++ "

Generate a summary with these sections:
1. **Executive Summary** (2-3 sentences)
2. **Key Themes** (2-3 bullet points)
3. **Recommended Actions** (prioritized numbered list)
4. **Risk Assessment** (any trust or reliability concerns)

Keep it concise and actionable. Focus on insights, not just data repetition.
").

Definition summary_messages (prompt : string) : list Chat.Message :=
  [ {| Chat.role := "system";
       Chat.content := "You are a senior product analyst creating executive summaries." |};
    {| Chat.role := "user"; Chat.content := prompt |} ].

Definition generatePMSummary (ai : Ai) (feedbackItems : list value)
  (metrics : value) (periodDescription : string) : JS.result string :=
  immediateEngineering <- bucket "immediate_engineering" feedbackItems ;;
  trustRisks <- bucket "trust_risk" feedbackItems ;;
  quickWins <- bucket "quick_win_backlog" feedbackItems ;;
  prompt <- summary_prompt immediateEngineering trustRisks quickWins
              metrics periodDescription ;;
  ai "@cf/meta/llama-3.1-70b-instruct" (summary_messages prompt).

End Engine.
End Summary.

(** The summary on the reference built-ins. *)
Definition summarize : Ai -> list value -> value -> string -> JS.result string :=
  Summary.generatePMSummary Runtime.NumberToString Format.stringify_text
    Format.toFixed1.


(* ================================================================== *)
(** ** Vocabulary for the further properties *)

(** The three labels [determineRoute] can push. *)
Definition route_labels : list string :=
  ["immediate_engineering"; "quick_win_backlog"; "trust_risk"].

(** Every string [determineRoute] can return. *)
Definition route_range : list string :=
  ["standard_backlog";
   "immediate_engineering";
   "quick_win_backlog";
   "trust_risk";
   "immediate_engineering,quick_win_backlog";
   "immediate_engineering,trust_risk";
   "quick_win_backlog,trust_risk";
   "immediate_engineering,quick_win_backlog,trust_risk"].

(** The number a comparison sees for an axis read from an object: a missing
    or [undefined] axis is NaN, [null] is 0, booleans are 0 and 1, a string
    is converted by the engine; arrays and objects are not covered. *)
Definition axis_number (string_to_number : string -> float) (axis : option value)
  : option float :=
  match axis with
  | None => Some nan
  | Some VUndefined => Some nan
  | Some VNull => Some zero
  | Some (VBool b) => Some (if b then one else zero)
  | Some (VNum n) => Some n
  | Some (VStr s) => Some (string_to_number s)
  | Some (VArr _) => None
  | Some (VObj _) => None
  end.

Definition with_impact (c : ClassificationVector) (i : float) : ClassificationVector :=
  {| urgency := urgency c; sentiment := sentiment c;
     impact := i; actionability := actionability c |}.

(** A row as the store returns it: an object whose [route], if it has one,
    is a string or [null]. *)
Definition is_row (f : value) : bool :=
  match f with
  | VObj o =>
      match own "route" o with
      | None => true
      | Some VUndefined => true
      | Some VNull => true
      | Some (VStr _) => true
      | Some _ => false
      end
  | _ => false
  end.

(** The row's route names the label. *)
Definition in_bucket (label : string) (f : value) : bool :=
  match f with
  | VObj o =>
      match own "route" o with
      | Some (VStr s) => includes s label
      | _ => false
      end
  | _ => false
  end.

Definition relevant (f : value) : bool :=
  in_bucket "immediate_engineering" f
  || in_bucket "trust_risk" f
  || in_bucket "quick_win_backlog" f.

(** [undefined] and [null], the values no property can be read from. *)
Definition nullish (v : value) : bool :=
  match v with
  | VUndefined => true
  | VNull => true
  | _ => false
  end.

(** The label a feedback item is rendered with in the prompt. *)
Definition label_text (f : Feedback) : string :=
  match label f with
  | Some l => if l =? "" then "None" else l
  | None => "None"
  end.

(** Induction on values through the lists they nest. *)
Section ValueInduction.

Variable P : value -> Prop.
Hypothesis P_undefined : P VUndefined.
Hypothesis P_null : P VNull.
Hypothesis P_bool : forall b, P (VBool b).
Hypothesis P_num : forall n, P (VNum n).
Hypothesis P_str : forall s, P (VStr s).
Hypothesis P_arr : forall l, Forall P l -> P (VArr l).
Hypothesis P_obj : forall o, Forall (fun kv => P (snd kv)) o -> P (VObj o).

Fixpoint value_induction (v : value) : P v :=
  match v with
  | VUndefined => P_undefined
  | VNull => P_null
  | VBool b => P_bool b
  | VNum n => P_num n
  | VStr s => P_str s
  | VArr l =>
      P_arr l
        ((fix all (l : list value) : Forall P l :=
            match l with
            | [] => Forall_nil P
            | x :: rest => Forall_cons x (value_induction x) (all rest)
            end) l)
  | VObj o =>
      P_obj o
        ((fix all (o : list (string * value)) : Forall (fun kv => P (snd kv)) o :=
            match o with
            | [] => Forall_nil _
            | kv :: rest =>
                Forall_cons kv (value_induction (snd kv)) (all rest)
            end) o)
  end.

End ValueInduction.

(** Inputs on which the further properties are run. *)

(** A response whose classification object carries keys the pipeline
    computes itself. *)
Definition shadowing_response : string :=
  quoted "{'classification': {'urgency': 5, 'sentiment': -2, 'impact': 5, 'actionability': 3, 'route': 'nowhere', 'confidence': 1, 'reasoning': 'mine'}, 'signals': ['loose text', {'signal_type': 'feature_area', 'signal_value': 'tunnels'}, null], 'confidence': 0.4, 'reasoning': 'top level'}".

(** An accepted response without a signals array. *)
Definition signalless_response : string :=
  quoted "{'classification': {'urgency': 5}}".

(** Rows with and without a route. *)
Definition routed_row (ident route : string) : value :=
  VObj [("id", VStr ident); ("source", VStr "github"); ("title", VStr "T");
        ("urgency", VNum 5); ("sentiment", VNum (-2)); ("impact", VNum 4);
        ("actionability", VNum 3); ("route", VStr route)].

Definition routeless_row (ident : string) : value :=
  VObj [("id", VStr ident); ("source", VStr "github"); ("title", VStr "T");
        ("urgency", VNum 5); ("sentiment", VNum (-2)); ("impact", VNum 4);
        ("actionability", VNum 3); ("reasoning", VStr "r")].

Definition sample_metrics : value :=
  VObj [("total", VNum 3);
        ("by_route", VArr [VObj [("route", VStr "quick_win_backlog"); ("count", VNum 1)]]);
        ("by_source", VArr []);
        ("averages", VObj [("avg_urgency", VNum 3); ("avg_sentiment", VNum (-0.25));
                            ("avg_impact", VNull)])].

(** The default keyword lists under thresholds that every vector on the
    scales meets. *)
Definition lenient_rules : ClassificationRules := {|
  routing_rules := {|
    immediate_engineering :=
      {| ImmediateEngineering.urgency_min := 1; ImmediateEngineering.impact_min := 1 |};
    quick_win_backlog :=
      {| QuickWinBacklog.urgency_max := 5; QuickWinBacklog.actionability_min := 1 |};
    trust_risk :=
      {| TrustRisk.sentiment_max := 2; TrustRisk.impact_min := 1 |}
  |};
  urgency_keywords := urgency_keywords defaultRules;
  impact_signals := impact_signals defaultRules
|}.

(** A stubbed model that answers with the user message it was sent. *)
Definition echo : Ai :=
  fun _ messages =>
    Ok (Chat.content (nth 1 messages {| Chat.role := ""; Chat.content := "" |})).

(* ================================================================== *)
(** ** Properties of objects and of the extraction patterns *)

Lemma own_app (k : string) (o1 o2 : props) :
  own k (o1 ++ o2)%list =
  match own k o1 with Some v => Some v | None => own k o2 end.
Proof.
  induction o1 as [|[k1 v1] o1 IH]; simpl; [reflexivity|].
  destruct (k1 =? k); [reflexivity | exact IH].
Qed.

Lemma own_replace_own (k k' : string) (v : value) (o : props) :
  has_own k' o = true ->
  own k (replace_own k' v o) = if k' =? k then Some v else own k o.
Proof.
  unfold has_own.
  induction o as [|[k1 v1] o IH]; simpl; [discriminate|].
  destruct (k1 =? k') eqn:E1.
  - intros _. apply String.eqb_eq in E1. subst k1. simpl.
    destruct (k' =? k); reflexivity.
  - intros H. simpl. destruct (k1 =? k) eqn:E2.
    + apply String.eqb_eq in E2. subst k1.
      rewrite String.eqb_sym, E1. reflexivity.
    + apply IH, H.
Qed.

Lemma own_insert_index (k k' : string) (i : N) (v : value) (o : props) :
  has_own k' o = false ->
  own k (insert_index i k' v o) = if k' =? k then Some v else own k o.
Proof.
  unfold has_own.
  induction o as [|[k1 v1] o IH]; simpl.
  - intros _. destruct (k' =? k); reflexivity.
  - destruct (k1 =? k') eqn:E1; [discriminate|]. intros H.
    assert (Hcons : own k ((k', v) :: (k1, v1) :: o) =
                    if k' =? k then Some v else own k ((k1, v1) :: o))
      by reflexivity.
    destruct (array_index k1) as [j|]; [destruct (j <? i)%N|]; try exact Hcons.
    simpl. destruct (k1 =? k) eqn:E2.
    + apply String.eqb_eq in E2. subst k1.
      rewrite String.eqb_sym, E1. reflexivity.
    + apply IH, H.
Qed.

(** Reading a key after [define]: the new value under the defined key,
    the old one under every other key. *)
Lemma own_define (k k' : string) (v : value) (o : props) :
  own k (define k' v o) = if k' =? k then Some v else own k o.
Proof.
  unfold define. destruct (has_own k' o) eqn:H.
  - apply own_replace_own, H.
  - destruct (array_index k') as [i|].
    + apply own_insert_index, H.
    + rewrite own_app. simpl. unfold has_own in H.
      destruct (k' =? k) eqn:E.
      * apply String.eqb_eq in E. subst k'.
        destruct (own k o); [discriminate | reflexivity].
      * destruct (own k o); reflexivity.
Qed.

(** Reading a key after spreading an object with distinct keys: the
    object's value when it has the key, the target's otherwise. *)
Lemma own_spread (k : string) (target o : props) :
  unique_keys o = true ->
  own k (spread target (VObj o)) =
  match own k o with Some v => Some v | None => own k target end.
Proof.
  unfold spread. simpl. revert target.
  induction o as [|[k1 v1] o IH]; intros target U; simpl; [reflexivity|].
  simpl in U. apply andb_true_iff in U. destruct U as [U1 U2].
  rewrite (IH _ U2), own_define.
  destruct (k1 =? k) eqn:E.
  - apply String.eqb_eq in E. subst k1.
    unfold has_own in U1. destruct (own k o); [discriminate | reflexivity].
  - reflexivity.
Qed.

Lemma own_spread_absent (k : string) (target o : props) :
  own k o = None ->
  own k (spread target (VObj o)) = own k target.
Proof.
  unfold spread. simpl. revert target.
  induction o as [|[k1 v1] o IH]; intros target H; simpl; [reflexivity|].
  simpl in H. destruct (k1 =? k) eqn:E; [discriminate|].
  rewrite (IH _ H), own_define, E. reflexivity.
Qed.

Lemma substring_0_0 (s : string) : substring 0 0 s = EmptyString.
Proof. destruct s; reflexivity. Qed.

(** The greedy star followed by the closing literal stops at the last
    occurrence of that literal. *)
Lemma match_star_then_last (close : ascii) (s : string) :
  match_star_then close s =
  option_map (fun j => substring 0 (j + 1) s) (last_index close s).
Proof.
  induction s as [|a s IH]; simpl; [reflexivity|].
  rewrite IH. destruct (last_index close s) as [j|]; simpl.
  - reflexivity.
  - destruct (a =? close)%char; simpl; [rewrite substring_0_0|]; reflexivity.
Qed.

(** The leftmost greedy match is the text from the first opening literal to
    the last closing one. *)
Lemma regex_match_delimited (open close : ascii) (s : string) :
  regex_match open close s = delimited_text open close s.
Proof.
  unfold delimited_text.
  induction s as [|a s IH]; simpl; [reflexivity|].
  destruct (a =? open)%char.
  - rewrite match_star_then_last.
    destruct (last_index close s) as [j|]; simpl.
    + replace (j - 0 + 1) with (S j) by lia.
      replace (j + 1) with (S j) by lia. reflexivity.
    + rewrite IH.
      destruct (first_index open s); destruct (a =? close)%char; reflexivity.
  - rewrite IH.
    destruct (first_index open s) as [i|]; simpl.
    + destruct (last_index close s) as [j|]; simpl.
      * replace (S i <? S j)%nat with (i <? j)%nat by reflexivity.
        reflexivity.
      * destruct (a =? close)%char; reflexivity.
    + reflexivity.
Qed.

Lemma first_index_nth (c : ascii) (s : string) (i : nat) :
  first_index c s = Some i ->
  string_nth i s = Some c /\
  forall i', string_nth i' s = Some c -> i <= i'.
Proof.
  revert i. induction s as [|a s IH]; simpl; intros i H; [discriminate|].
  destruct (a =? c)%char eqn:E.
  - inversion H; subst i. apply Ascii.eqb_eq in E. subst a.
    split; [reflexivity | intros; lia].
  - destruct (first_index c s) as [i0|]; [|discriminate].
    inversion H; subst i. destruct (IH i0 eq_refl) as [H1 H2].
    split; [exact H1|].
    intros [|i'] Hn; simpl in Hn.
    + inversion Hn; subst a. rewrite Ascii.eqb_refl in E. discriminate.
    + apply H2 in Hn. lia.
Qed.

Lemma first_index_none (c : ascii) (s : string) (i : nat) :
  first_index c s = None -> string_nth i s <> Some c.
Proof.
  revert i. induction s as [|a s IH]; simpl; intros i H.
  - destruct i; discriminate.
  - destruct (a =? c)%char eqn:E; [discriminate|].
    destruct (first_index c s); [discriminate|].
    destruct i as [|i]; simpl.
    + intros Hn. inversion Hn; subst a. rewrite Ascii.eqb_refl in E. discriminate.
    + apply IH. reflexivity.
Qed.

Lemma last_index_nth (c : ascii) (s : string) (j : nat) :
  last_index c s = Some j ->
  string_nth j s = Some c /\
  forall j', string_nth j' s = Some c -> j' <= j.
Proof.
  revert j. induction s as [|a s IH]; simpl; intros j H; [discriminate|].
  destruct (last_index c s) as [j0|] eqn:L.
  - inversion H; subst j. destruct (IH j0 eq_refl) as [H1 H2].
    split; [exact H1|].
    intros [|j'] Hn; simpl in Hn; [lia|]. apply H2 in Hn. lia.
  - destruct (a =? c)%char eqn:E; [|discriminate].
    inversion H; subst j. apply Ascii.eqb_eq in E. subst a.
    split; [reflexivity|].
    intros [|j'] Hn; simpl in Hn; [lia|].
    exfalso. revert Hn. clear -L. revert j'.
    induction s as [|b s IHs]; simpl in *; intros j' Hn.
    + destruct j'; discriminate.
    + destruct (last_index c s); [discriminate|].
      destruct (b =? c)%char eqn:E; [discriminate|].
      destruct j' as [|j']; simpl in Hn.
      * inversion Hn; subst b. rewrite Ascii.eqb_refl in E. discriminate.
      * apply (IHs eq_refl j'), Hn.
Qed.

Lemma last_index_none (c : ascii) (s : string) (j : nat) :
  last_index c s = None -> string_nth j s <> Some c.
Proof.
  revert j. induction s as [|a s IH]; simpl; intros j H.
  - destruct j; discriminate.
  - destruct (last_index c s); [discriminate|].
    destruct (a =? c)%char eqn:E; [discriminate|].
    destruct j as [|j]; simpl.
    + intros Hn. inversion Hn; subst a. rewrite Ascii.eqb_refl in E. discriminate.
    + apply IH. reflexivity.
Qed.

(** There is text to extract exactly when some opening literal stands before
    some closing literal. *)
Lemma delimited_text_none (open close : ascii) (s : string) :
  delimited_text open close s = None <->
  ~ exists i j, i < j /\ string_nth i s = Some open /\ string_nth j s = Some close.
Proof.
  unfold delimited_text. split.
  - intros H [i [j [Hij [Hi Hj]]]].
    destruct (first_index open s) as [i0|] eqn:F.
    + destruct (last_index close s) as [j0|] eqn:L.
      * destruct (i0 <? j0)%nat eqn:C; [discriminate|].
        apply Nat.ltb_ge in C.
        apply first_index_nth in F. apply last_index_nth in L.
        destruct F as [_ F]. destruct L as [_ L].
        apply F in Hi. apply L in Hj. lia.
      * exact (last_index_none close s j L Hj).
    + exact (first_index_none open s i F Hi).
  - intros H.
    destruct (first_index open s) as [i0|] eqn:F; [|reflexivity].
    destruct (last_index close s) as [j0|] eqn:L; [|reflexivity].
    destruct (i0 <? j0)%nat eqn:C; [|reflexivity].
    exfalso. apply H. exists i0, j0.
    apply Nat.ltb_lt in C.
    apply first_index_nth in F. apply last_index_nth in L.
    split; [exact C|]. split; [apply F | apply L].
Qed.

(* ================================================================== *)
(** ** Values built by the reference [JSON.parse] are well formed *)


Lemma has_own_replace_own (k k' : string) (v : value) (o : props) :
  has_own k (replace_own k' v o) = has_own k o.
Proof.
  unfold has_own.
  induction o as [|[k1 v1] o IH]; simpl; [reflexivity|].
  destruct (k1 =? k') eqn:E1; simpl.
  - apply String.eqb_eq in E1. subst k1. destruct (k' =? k); reflexivity.
  - destruct (k1 =? k); [reflexivity | exact IH].
Qed.

Lemma unique_keys_replace_own (k : string) (v : value) (o : props) :
  unique_keys o = true -> unique_keys (replace_own k v o) = true.
Proof.
  induction o as [|[k1 v1] o IH]; [reflexivity|].
  intros U.
  cbn [unique_keys] in U. apply andb_true_iff in U. destruct U as [U1 U2].
  cbn [replace_own]. destruct (k1 =? k) eqn:E; cbn [unique_keys].
  - apply String.eqb_eq in E. subst k1. rewrite U1, U2. reflexivity.
  - rewrite has_own_replace_own, U1, (IH U2). reflexivity.
Qed.

Lemma has_own_insert_index (k k' : string) (i : N) (v : value) (o : props) :
  has_own k (insert_index i k' v o) = (k' =? k) || has_own k o.
Proof.
  unfold has_own.
  induction o as [|[k1 v1] o IH]; simpl.
  - destruct (k' =? k); reflexivity.
  - assert (Hcons : match own k ((k', v) :: (k1, v1) :: o) with
                    | Some _ => true | None => false end
                    = (k' =? k) || match own k ((k1, v1) :: o) with
                                   | Some _ => true | None => false end).
    { simpl. destruct (k' =? k); reflexivity. }
    destruct (array_index k1) as [j|]; [destruct (j <? i)%N|]; try exact Hcons.
    simpl. destruct (k1 =? k).
    + destruct (k' =? k); reflexivity.
    + exact IH.
Qed.

Lemma unique_keys_insert_index (k : string) (i : N) (v : value) (o : props) :
  has_own k o = false ->
  unique_keys o = true ->
  unique_keys (insert_index i k v o) = true.
Proof.
  induction o as [|[k1 v1] o IH]; [reflexivity|].
  intros H U.
  assert (Hcons : unique_keys ((k, v) :: (k1, v1) :: o) = true).
  { change (negb (has_own k ((k1, v1) :: o)) && unique_keys ((k1, v1) :: o) = true).
    rewrite H, U. reflexivity. }
  cbn [unique_keys] in U. apply andb_true_iff in U. destruct U as [U1 U2].
  assert (Hk : (k1 =? k) = false /\ has_own k o = false).
  { unfold has_own in *. cbn [own] in H. destruct (k1 =? k); [discriminate|].
    split; [reflexivity | exact H]. }
  destruct Hk as [Hk1 Hk2].
  cbn [insert_index].
  destruct (array_index k1) as [j|]; [destruct (j <? i)%N|]; try exact Hcons.
  cbn [unique_keys]. rewrite has_own_insert_index, (IH Hk2 U2).
  rewrite String.eqb_sym, Hk1. cbn [orb]. rewrite U1. reflexivity.
Qed.

Lemma unique_keys_app_single (k : string) (v : value) (o : props) :
  has_own k o = false ->
  unique_keys o = true ->
  unique_keys (o ++ [(k, v)])%list = true.
Proof.
  induction o as [|[k1 v1] o IH]; [reflexivity|].
  intros H U.
  cbn [unique_keys] in U. apply andb_true_iff in U. destruct U as [U1 U2].
  assert (Hk : (k1 =? k) = false /\ has_own k o = false).
  { unfold has_own in *. cbn [own] in H. destruct (k1 =? k); [discriminate|].
    split; [reflexivity | exact H]. }
  destruct Hk as [Hk1 Hk2].
  change (negb (has_own k1 (o ++ [(k, v)])%list)
          && unique_keys (o ++ [(k, v)])%list = true).
  rewrite (IH Hk2 U2), andb_true_r.
  unfold has_own in *. rewrite own_app.
  destruct (own k1 o); [discriminate|].
  cbn [own]. rewrite String.eqb_sym, Hk1. reflexivity.
Qed.

Lemma unique_keys_define (k : string) (v : value) (o : props) :
  unique_keys o = true -> unique_keys (define k v o) = true.
Proof.
  intros U. unfold define. destruct (has_own k o) eqn:H.
  - apply unique_keys_replace_own, U.
  - destruct (array_index k).
    + apply unique_keys_insert_index; assumption.
    + apply unique_keys_app_single; assumption.
Qed.

Lemma values_define (P : value -> bool) (k : string) (v : value) (o : props) :
  P v = true ->
  forallb (fun kv => P (snd kv)) o = true ->
  forallb (fun kv => P (snd kv)) (define k v o) = true.
Proof.
  intros Pv Po. unfold define. destruct (has_own k o).
  - induction o as [|[k1 v1] o IH]; simpl in *; [reflexivity|].
    apply andb_true_iff in Po. destruct Po as [P1 P2].
    destruct (k1 =? k); simpl.
    + rewrite Pv, P2. reflexivity.
    + rewrite P1, (IH P2). reflexivity.
  - destruct (array_index k) as [i|].
    + induction o as [|[k1 v1] o IH]; simpl in *; [rewrite Pv; reflexivity|].
      apply andb_true_iff in Po. destruct Po as [P1 P2].
      destruct (array_index k1) as [j|]; [destruct (j <? i)%N|]; simpl;
        rewrite ?Pv, ?P1, ?P2, ?(IH P2); reflexivity.
    + rewrite forallb_app, Po. simpl. rewrite Pv. reflexivity.
Qed.

Lemma well_formed_define (k : string) (v : value) (o : props) :
  well_formed v = true ->
  well_formed (VObj o) = true ->
  well_formed (VObj (define k v o)) = true.
Proof.
  simpl. intros Wv Wo. apply andb_true_iff in Wo. destruct Wo as [U F].
  rewrite (unique_keys_define k v o U).
  apply (values_define well_formed); assumption.
Qed.

Section Parser.

Variable pv : Runtime.parser.
Hypothesis pv_well_formed :
  forall s v rest, pv s = Some (v, rest) -> well_formed v = true.

Lemma parse_elements_well_formed (n : nat) (acc : list value) (s : string)
  (v : value) (rest : string) :
  forallb well_formed acc = true ->
  Runtime.parse_elements n pv acc s = Some (v, rest) ->
  well_formed v = true.
Proof.
  revert acc s. induction n as [|n IH]; intros acc s A H;
    cbn [Runtime.parse_elements] in H; [discriminate|].
  destruct (pv s) as [[x r]|] eqn:E; [|discriminate].
  apply pv_well_formed in E.
  assert (A' : forallb well_formed (acc ++ [x])%list = true)
    by (rewrite forallb_app, A; simpl; rewrite E; reflexivity).
  destruct (Runtime.skip_ws r) as [|c r1]; [discriminate|].
  destruct (c =? ",")%char; [exact (IH _ _ A' H)|].
  destruct (c =? "]")%char; [|discriminate].
  inversion H; subst. exact A'.
Qed.

Lemma parse_members_well_formed (n : nat) (acc : props) (s : string)
  (v : value) (rest : string) :
  well_formed (VObj acc) = true ->
  Runtime.parse_members n pv acc s = Some (v, rest) ->
  well_formed v = true.
Proof.
  revert acc s. induction n as [|n IH]; intros acc s A H;
    cbn [Runtime.parse_members] in H; [discriminate|].
  destruct (Runtime.skip_ws s) as [|q r]; [discriminate|].
  destruct (q =? dquote)%char; [|discriminate].
  destruct (Runtime.parse_string_body r) as [[k r1]|]; [|discriminate].
  destruct (Runtime.skip_ws r1) as [|c r2]; [discriminate|].
  destruct (c =? ":")%char; [|discriminate].
  destruct (pv r2) as [[x r3]|] eqn:E; [|discriminate].
  apply pv_well_formed in E.
  pose proof (well_formed_define k x acc E A) as A'.
  destruct (Runtime.skip_ws r3) as [|d r4]; [discriminate|].
  destruct (d =? ",")%char; [exact (IH _ _ A' H)|].
  destruct (d =? "}")%char; [|discriminate].
  inversion H; subst. exact A'.
Qed.

End Parser.

Lemma parse_value_well_formed (fuel : nat) (s : string) (v : value)
  (rest : string) :
  Runtime.parse_value fuel s = Some (v, rest) -> well_formed v = true.
Proof.
  revert s v rest. induction fuel as [|fuel IH]; intros s v rest H;
    cbn [Runtime.parse_value] in H; [discriminate|].
  destruct (Runtime.skip_ws s) as [|c r]; [discriminate|].
  destruct (c =? "{")%char.
  { destruct (Runtime.skip_ws r) as [|d r1]; [discriminate|].
    destruct (d =? "}")%char; [inversion H; reflexivity|].
    apply (parse_members_well_formed _ IH _ [] _ _ _ eq_refl H). }
  destruct (c =? "[")%char.
  { destruct (Runtime.skip_ws r) as [|d r1]; [discriminate|].
    destruct (d =? "]")%char; [inversion H; reflexivity|].
    apply (parse_elements_well_formed _ IH _ [] _ _ _ eq_refl H). }
  destruct (c =? dquote)%char.
  { destruct (Runtime.parse_string_body r) as [[t r1]|]; [|discriminate].
    inversion H; reflexivity. }
  unfold option_map in H.
  destruct (c =? "t")%char.
  { destruct (Runtime.strip_prefix _ _); [|discriminate].
    inversion H; reflexivity. }
  destruct (c =? "f")%char.
  { destruct (Runtime.strip_prefix _ _); [|discriminate].
    inversion H; reflexivity. }
  destruct (c =? "n")%char.
  { destruct (Runtime.strip_prefix _ _); [|discriminate].
    inversion H; reflexivity. }
  destruct (Runtime.parse_number _) as [[x r1]|]; [|discriminate].
  inversion H; reflexivity.
Qed.

(** The objects of a parsed value have distinct keys. *)
Lemma JSON_parse_well_formed (text : string) (v : value) :
  Runtime.JSON_parse text = Ok v -> well_formed v = true.
Proof.
  unfold Runtime.JSON_parse. intros H.
  destruct (Runtime.parse_value (S (String.length text)) text) as [[x r]|] eqn:E;
    [|discriminate].
  destruct (Runtime.skip_ws r); [|discriminate].
  inversion H; subst. apply (parse_value_well_formed _ _ _ _ E).
Qed.

(** Reading a property of a well-formed value gives a well-formed value. *)
Lemma get_well_formed (v x : value) (k : string) :
  well_formed v = true -> get v k = Ok x -> well_formed x = true.
Proof.
  destruct v as [| |b|n|s|l|o]; simpl; intros W G; try discriminate;
    try (inversion G; reflexivity).
  - destruct (k =? "length"); [inversion G; reflexivity|].
    destruct (array_index k) as [i|]; [|inversion G; reflexivity].
    destruct (string_nth (N.to_nat i) s); inversion G; reflexivity.
  - destruct (k =? "length"); [inversion G; reflexivity|].
    destruct (array_index k) as [i|]; [|inversion G; reflexivity].
    inversion G; subst x. clear G.
    generalize (N.to_nat i) as j. intros j. revert j.
    induction l as [|y l IH]; intros [|j]; simpl in *; try reflexivity;
      apply andb_true_iff in W; destruct W as [W1 W2];
      [exact W1 | apply (IH W2)].
  - apply andb_true_iff in W. destruct W as [_ W].
    destruct (own k o) as [y|] eqn:O; inversion G; subst x; [|reflexivity].
    clear G. induction o as [|[k1 v1] o IH]; simpl in *; [discriminate|].
    apply andb_true_iff in W. destruct W as [W1 W2].
    destruct (k1 =? k); [inversion O; subst; exact W1 | apply (IH W2 O)].
Qed.

(* ================================================================== *)
(** ** The pipeline, for every engine *)

Section Properties.

Variable json_parse : string -> result value.
Variable string_to_number : string -> float.
Variable number_to_string : float -> string.

#[local] Abbreviation determineRoute :=
  (FeedbackClassifier.determineRoute string_to_number number_to_string).
#[local] Abbreviation try_parse :=
  (FeedbackClassifier.try_parse json_parse).
#[local] Abbreviation parseAIResponse :=
  (FeedbackClassifier.parseAIResponse json_parse).
#[local] Abbreviation assemble :=
  (FeedbackClassifier.assemble string_to_number number_to_string).
#[local] Abbreviation classifyFeedback :=
  (FeedbackClassifier.classifyFeedback json_parse string_to_number number_to_string).
#[local] Abbreviation extractThemes :=
  (FeedbackClassifier.extractThemes json_parse number_to_string).
#[local] Abbreviation malformed := (FeedbackClassifier.malformed json_parse).

(** *** The rule engine *)

(** On an object whose four axes are numbers, whatever else it holds,
    [determineRoute] returns the specification's route. *)
Lemma determineRoute_numeric (o : props) (c : ClassificationVector)
  (rules : ClassificationRules) :
  own "urgency" o = Some (VNum (urgency c)) ->
  own "sentiment" o = Some (VNum (sentiment c)) ->
  own "impact" o = Some (VNum (impact c)) ->
  own "actionability" o = Some (VNum (actionability c)) ->
  determineRoute (VObj o) rules = Ok (route_string c rules).
Proof.
  intros Hu Hs Hi Ha.
  unfold FeedbackClassifier.determineRoute, route_string, matched_labels, predicates,
    js_ge, js_le, and_then, bind, ge, le.
  cbv zeta. simpl get. rewrite Hu, Hs, Hi, Ha.
  cbv beta iota delta [to_number].
  destruct (PrimFloat.leb _ (urgency c));
    destruct (PrimFloat.leb _ (impact c));
    destruct (PrimFloat.leb (urgency c) _);
    destruct (PrimFloat.leb _ (actionability c));
    destruct (PrimFloat.leb (sentiment c) _);
    destruct (PrimFloat.leb _ (impact c));
    reflexivity.
Qed.

Lemma determineRoute_vector (c : ClassificationVector) (rules : ClassificationRules) :
  determineRoute (vector_value c) rules = Ok (route_string c rules).
Proof. apply determineRoute_numeric; reflexivity. Qed.

(** C1: for every classification vector and rule configuration,
    [determineRoute] evaluates three independent predicates
    (immediate_engineering iff urgency >= urgency_min and impact >=
    impact_min; quick_win_backlog iff urgency <= urgency_max and
    actionability >= actionability_min; trust_risk iff sentiment <=
    sentiment_max and impact >= impact_min) and returns the matched labels
    joined by commas in that order; urgency 5, impact 5, sentiment -2,
    actionability 5 under the default thresholds gives
    "immediate_engineering,trust_risk". *)
Theorem determineRoute_three_predicates (c : ClassificationVector)
  (rules : ClassificationRules) :
  let r := routing_rules rules in
  determineRoute (vector_value c) rules =
    Ok (match matched_labels c rules with
        | [] => "standard_backlog"
        | l => concat "," l
        end)
  /\ (In "immediate_engineering" (matched_labels c rules) <->
      ge (urgency c) (ImmediateEngineering.urgency_min (immediate_engineering r)) = true
      /\ ge (impact c) (ImmediateEngineering.impact_min (immediate_engineering r)) = true)
  /\ (In "quick_win_backlog" (matched_labels c rules) <->
      le (urgency c) (QuickWinBacklog.urgency_max (quick_win_backlog r)) = true
      /\ ge (actionability c) (QuickWinBacklog.actionability_min (quick_win_backlog r)) = true)
  /\ (In "trust_risk" (matched_labels c rules) <->
      le (sentiment c) (TrustRisk.sentiment_max (trust_risk r)) = true
      /\ ge (impact c) (TrustRisk.impact_min (trust_risk r)) = true)
  /\ (exists l1 l2 l3,
        matched_labels c rules = (l1 ++ l2 ++ l3)%list
        /\ (l1 = [] \/ l1 = ["immediate_engineering"])
        /\ (l2 = [] \/ l2 = ["quick_win_backlog"])
        /\ (l3 = [] \/ l3 = ["trust_risk"]))
  /\ determineRoute
       (vector_value {| urgency := 5; sentiment := -2; impact := 5; actionability := 5 |})
       defaultRules
     = Ok "immediate_engineering,trust_risk".
Proof.
  intros r. split; [apply determineRoute_vector|].
  unfold matched_labels, predicates. fold r.
  set (b1 := ge (urgency c) _ && _).
  set (b2 := le (urgency c) _ && _).
  set (b3 := le (sentiment c) _ && _).
  assert (E1 : b1 = true <-> _ /\ _) by apply andb_true_iff.
  assert (E2 : b2 = true <-> _ /\ _) by apply andb_true_iff.
  assert (E3 : b3 = true <-> _ /\ _) by apply andb_true_iff.
  rewrite <- E1, <- E2, <- E3. clear E1 E2 E3.
  split; [destruct b1, b2, b3; simpl; intuition discriminate|].
  split; [destruct b1, b2, b3; simpl; intuition discriminate|].
  split; [destruct b1, b2, b3; simpl; intuition discriminate|].
  split.
  - exists (if b1 then ["immediate_engineering"] else []),
           (if b2 then ["quick_win_backlog"] else []),
           (if b3 then ["trust_risk"] else []).
    destruct b1, b2, b3; simpl; auto.
  - rewrite determineRoute_vector. reflexivity.
Qed.

(** C4: for every classification vector and rule configuration,
    [determineRoute] returns (it does not throw) a non-empty string; when
    none of the three predicates matches the result is exactly
    "standard_backlog", as for urgency 2, impact 1, sentiment 0,
    actionability 2 under the default thresholds. *)
Theorem determineRoute_total (c : ClassificationVector)
  (rules : ClassificationRules) :
  (exists route,
      determineRoute (vector_value c) rules = Ok route
      /\ route <> ""
      /\ (matched_labels c rules = [] -> route = "standard_backlog"))
  /\ determineRoute
       (vector_value {| urgency := 2; sentiment := 0; impact := 1; actionability := 2 |})
       defaultRules
     = Ok "standard_backlog".
Proof.
  split.
  - exists (route_string c rules). split; [apply determineRoute_vector|].
    unfold route_string, matched_labels, predicates.
    split.
    + destruct (_ && _), (_ && _), (_ && _); simpl; discriminate.
    + intros ->. reflexivity.
  - rewrite determineRoute_vector. reflexivity.
Qed.

(** *** Extraction of the JSON text *)

(** C7: for every response text the extraction step selects the text from
    the first opening brace to the last closing brace (no balanced parse),
    so prose before and after the object is tolerated; extraction fails
    exactly when no opening brace is followed by a closing brace. *)
Theorem extraction_first_brace_to_last (response : string) :
  regex_match "{" "}" response = delimited_text "{" "}" response
  /\ (regex_match "{" "}" response = None <->
      ~ exists i j, i < j /\ string_nth i response = Some "{"%char
                          /\ string_nth j response = Some "}"%char)
  /\ try_parse response =
     match delimited_text "{" "}" response with
     | None => Throw (Error "No JSON found in response")
     | Some jsonMatch =>
         parsed <- json_parse jsonMatch ;;
         invalid <- invalid_structure parsed ;;
         if invalid then Throw (Error "Invalid classification structure")
         else Ok parsed
     end.
Proof.
  split; [apply regex_match_delimited|].
  split.
  - rewrite regex_match_delimited. apply delimited_text_none.
  - unfold FeedbackClassifier.try_parse. rewrite regex_match_delimited. reflexivity.
Qed.

(** *** Validation and fallback *)

Lemma invalid_structure_accepts (parsed : value) :
  invalid_structure parsed = Ok false <-> has_numeric_urgency parsed.
Proof.
  unfold invalid_structure, has_numeric_urgency, bind. split.
  - intros H.
    destruct (get parsed "classification") as [c|e] eqn:G; [|discriminate].
    destruct c as [| |b|x|s|l|o]; simpl in H; try discriminate.
    + destruct b; discriminate.
    + destruct (negb (PrimFloat.is_zero x || PrimFloat.is_nan x)); discriminate.
    + destruct (negb (s =? "")); discriminate.
    + exists o. destruct (own "urgency" o) as [u|]; [|discriminate].
      destruct u; try discriminate. eexists. split; reflexivity.
  - intros [o [n [G U]]]. rewrite G. simpl. rewrite U. reflexivity.
Qed.

(** What the [try] block does with a response, by cases. *)
Lemma try_parse_cases (response : string) :
  match try_parse response with
  | Ok parsed =>
      has_numeric_urgency parsed
      /\ exists m, delimited_text "{" "}" response = Some m
                   /\ json_parse m = Ok parsed
  | Throw _ => malformed response
  end.
Proof.
  unfold FeedbackClassifier.try_parse, FeedbackClassifier.malformed.
  rewrite regex_match_delimited.
  destruct (delimited_text "{" "}" response) as [m|]; [|left; reflexivity].
  unfold bind at 1.
  destruct (json_parse m) as [parsed|e] eqn:P.
  - unfold bind.
    destruct (invalid_structure parsed) as [[|]|e] eqn:V.
    + right; right. exists m, parsed. repeat split; trivial.
      intros A. apply invalid_structure_accepts in A. congruence.
    + split; [apply invalid_structure_accepts, V|]. exists m. auto.
    + right; right. exists m, parsed. repeat split; trivial.
      intros A. apply invalid_structure_accepts in A. congruence.
  - right; left. exists m, e. auto.
Qed.

Lemma try_parse_malformed (response : string) :
  malformed response -> exists e, try_parse response = Throw e.
Proof.
  intros M. pose proof (try_parse_cases response) as C.
  destruct (try_parse response) as [parsed|e]; [|exists e; reflexivity].
  exfalso. destruct C as [A [m [D P]]].
  destruct M as [N | [[m' [e [D' P']]] | [m' [parsed' [D' [P' NA]]]]]];
    congruence.
Qed.

Lemma try_parse_accepted (response m : string) (parsed : value) :
  delimited_text "{" "}" response = Some m ->
  json_parse m = Ok parsed ->
  has_numeric_urgency parsed ->
  try_parse response = Ok parsed.
Proof.
  intros D P A. unfold FeedbackClassifier.try_parse.
  rewrite regex_match_delimited, D. unfold bind. rewrite P.
  apply invalid_structure_accepts in A. rewrite A. reflexivity.
Qed.

(** The conservative default, assembled for a feedback item. *)
Lemma assemble_default (feedback : Feedback) (rules : ClassificationRules) :
  assemble feedback rules conservative_default =
  Ok {| classification := fallback_classification feedback rules;
        signals := [] |}.
Proof.
  unfold FeedbackClassifier.assemble, conservative_default. simpl get.
  unfold bind at 1.
  change (VObj [("urgency", VNum 3); ("sentiment", VNum 0);
                ("impact", VNum 3); ("actionability", VNum 2)])
    with (vector_value default_vector).
  rewrite determineRoute_vector. unfold bind at 1.
  unfold fallback_classification.
  generalize (route_string default_vector rules) as r.
  intros r. reflexivity.
Qed.

(** C2: for every response text from which no JSON object can be
    extracted, or whose extracted text does not parse, or which parses but
    lacks a classification object with a numeric urgency, [classifyFeedback]
    returns (it does not throw) the conservative default: urgency 3,
    sentiment 0, impact 3, actionability 2, confidence 0.3, no signals, the
    fixed reasoning, and the route [determineRoute] computes from that vector
    under the supplied rules, which is "standard_backlog" under the default
    thresholds. *)
Theorem classifyFeedback_fallback (ai : Ai) (feedback : Feedback)
  (rules : ClassificationRules) (out : console) (response : string) :
  ai "@cf/meta/llama-3.1-70b-instruct" (classification_messages feedback rules)
    = Ok response ->
  malformed response ->
  (exists e,
      classifyFeedback ai feedback rules out =
      (Ok {| classification :=
               [("feedback_id", VStr (id feedback));
                ("urgency", VNum 3); ("sentiment", VNum 0);
                ("impact", VNum 3); ("actionability", VNum 2);
                ("route", VStr (route_string default_vector rules));
                ("confidence", VNum 0.3);
                ("reasoning",
                 VStr "Failed to parse AI response, using conservative defaults")];
             signals := [] |},
       (out ++ [[LStr "Failed to parse AI response:"; LExn e;
                 LStr "Response:"; LStr response]])%list))
  /\ determineRoute (vector_value default_vector) rules
     = Ok (route_string default_vector rules)
  /\ (routing_rules rules = routing_rules defaultRules ->
      route_string default_vector rules = "standard_backlog").
Proof.
  intros Hai M. split; [|split].
  - destruct (try_parse_malformed response M) as [e T]. exists e.
    unfold FeedbackClassifier.classifyFeedback. rewrite Hai.
    unfold FeedbackClassifier.parseAIResponse. rewrite T.
    rewrite assemble_default. reflexivity.
  - apply determineRoute_vector.
  - intros R. unfold route_string, matched_labels, predicates.
    rewrite R. reflexivity.
Qed.

(** C5: validation accepts a parsed value exactly when it has a
    classification object whose urgency is a number; any other shape takes
    the fallback path; nothing is asked of sentiment, impact and
    actionability, so an accepted value reaches [determineRoute] with
    whatever its classification object holds for them. *)
Theorem validation_checks_urgency_only (parsed : value) :
  (invalid_structure parsed = Ok false <-> has_numeric_urgency parsed)
  /\ (forall response m out,
        delimited_text "{" "}" response = Some m ->
        json_parse m = Ok parsed ->
        (has_numeric_urgency parsed ->
         parseAIResponse response out = (parsed, out))
        /\ (~ has_numeric_urgency parsed ->
            fst (parseAIResponse response out) = conservative_default))
  /\ (forall ai feedback rules out response m o n,
        ai "@cf/meta/llama-3.1-70b-instruct"
           (classification_messages feedback rules) = Ok response ->
        delimited_text "{" "}" response = Some m ->
        json_parse m = Ok parsed ->
        get parsed "classification" = Ok (VObj o) ->
        own "urgency" o = Some (VNum n) ->
        classifyFeedback ai feedback rules out =
        (route <- determineRoute (VObj o) rules ;; build feedback parsed route,
         out)).
Proof.
  split; [apply invalid_structure_accepts|]. split.
  - intros response m out D P. split.
    + intros A. unfold FeedbackClassifier.parseAIResponse.
      rewrite (try_parse_accepted response m parsed D P A). reflexivity.
    + intros NA. unfold FeedbackClassifier.parseAIResponse.
      destruct (try_parse_malformed response) as [e T].
      * right; right. exists m, parsed. auto.
      * rewrite T. reflexivity.
  - intros ai feedback rules out response m o n Hai D P G U.
    unfold FeedbackClassifier.classifyFeedback. rewrite Hai.
    unfold FeedbackClassifier.parseAIResponse.
    rewrite (try_parse_accepted response m parsed D P).
    + unfold FeedbackClassifier.assemble. rewrite G. reflexivity.
    + exists o, n. auto.
Qed.

(** *** Transport failure *)

(** C6: when the model invocation itself throws, [classifyFeedback]
    rejects with that error: no result is returned, so no conservative
    default is substituted, and nothing is logged.  The fallback, which
    always logs, is taken only after a response text has been obtained, and
    only when extraction, parsing or validation of that text fails. *)
Theorem classifyFeedback_propagates_invocation_failure (ai : Ai)
  (feedback : Feedback) (rules : ClassificationRules) (out : console) :
  (forall e,
      ai "@cf/meta/llama-3.1-70b-instruct" (classification_messages feedback rules)
        = Throw e ->
      classifyFeedback ai feedback rules out = (Throw e, out))
  /\ (forall res out',
        classifyFeedback ai feedback rules out = (res, out') ->
        out' <> out ->
        exists response,
          ai "@cf/meta/llama-3.1-70b-instruct"
             (classification_messages feedback rules) = Ok response
          /\ malformed response
          /\ fst (parseAIResponse response out) = conservative_default).
Proof.
  unfold FeedbackClassifier.classifyFeedback. split.
  - intros e H. rewrite H. reflexivity.
  - intros res out' H N.
    destruct (ai "@cf/meta/llama-3.1-70b-instruct"
                 (classification_messages feedback rules)) as [response|e];
      [|inversion H; congruence].
    exists response. split; [reflexivity|].
    unfold FeedbackClassifier.parseAIResponse in *.
    pose proof (try_parse_cases response) as C.
    destruct (try_parse response) as [parsed|e].
    + inversion H; congruence.
    + split; [exact C | reflexivity].
Qed.

(** *** Determinism *)

(** C9: two invocations on the same feedback item and rules, with model
    capabilities that return the same response text, yield the same
    classification record and signals, whatever had been logged before; run
    from the same log they agree on the log as well. *)
Theorem classifyFeedback_deterministic (ai1 ai2 : Ai) (feedback : Feedback)
  (rules : ClassificationRules) (out1 out2 : console) (response : string) :
  ai1 "@cf/meta/llama-3.1-70b-instruct" (classification_messages feedback rules)
    = Ok response ->
  ai2 "@cf/meta/llama-3.1-70b-instruct" (classification_messages feedback rules)
    = Ok response ->
  fst (classifyFeedback ai1 feedback rules out1)
    = fst (classifyFeedback ai2 feedback rules out2)
  /\ (out1 = out2 ->
      classifyFeedback ai1 feedback rules out1
        = classifyFeedback ai2 feedback rules out2).
Proof.
  intros H1 H2. unfold FeedbackClassifier.classifyFeedback. rewrite H1, H2.
  split.
  - unfold FeedbackClassifier.parseAIResponse.
    destruct (try_parse response); reflexivity.
  - intros ->. reflexivity.
Qed.

(** *** Result assembly *)

(** What a returned record is made of. *)
Lemma build_ok (feedback : Feedback) (result : value) (route : string)
  (res : Classified) :
  build feedback result route = Ok res ->
  exists c confidence reasoning sl,
    get result "classification" = Ok c
    /\ get result "confidence" = Ok confidence
    /\ get result "reasoning" = Ok reasoning
    /\ get result "signals" = Ok (VArr sl)
    /\ classification res =
       define "reasoning" reasoning
         (define "confidence" confidence
            (define "route" (VStr route)
               (spread [("feedback_id", VStr (id feedback))] c)))
    /\ signals res =
       map (fun s => spread [("feedback_id", VStr (id feedback))] s) sl.
Proof.
  unfold build, bind, array_map. intros H.
  destruct (get result "classification") as [c|]; [|discriminate].
  destruct (get result "confidence") as [confidence|]; [|discriminate].
  destruct (get result "reasoning") as [reasoning|]; [|discriminate].
  destruct (get result "signals") as [s|]; [|discriminate].
  destruct s as [| | | | |sl|]; try discriminate.
  inversion H; subst res. simpl.
  exists c, confidence, reasoning, sl. repeat split; reflexivity.
Qed.

Lemma assemble_ok (feedback : Feedback) (rules : ClassificationRules)
  (result : value) (res : Classified) :
  assemble feedback rules result = Ok res ->
  exists c route,
    get result "classification" = Ok c
    /\ determineRoute c rules = Ok route
    /\ build feedback result route = Ok res.
Proof.
  unfold FeedbackClassifier.assemble, bind. intros H.
  destruct (get result "classification") as [c|]; [|discriminate].
  destruct (determineRoute c rules) as [route|] eqn:R; [|discriminate].
  exists c, route. auto.
Qed.

(** The identifier a spread leaves on a record stamped with [i]. *)
Lemma own_feedback_id_spread (i : string) (o : props) :
  unique_keys o = true ->
  own "feedback_id" (spread [("feedback_id", VStr i)] (VObj o)) =
  Some (match own "feedback_id" o with Some v => v | None => VStr i end).
Proof.
  intros U. rewrite (own_spread _ _ _ U).
  destruct (own "feedback_id" o); reflexivity.
Qed.

(** C10: the parsed fields are spread after the stamped identifier, so a
    [feedback_id] key in the parsed classification object, or in a parsed
    signal object, is what [classifyFeedback] returns; the input item's
    identifier is returned only when the parsed object has no such key. *)
Theorem model_feedback_id_overrides_stamp (ai : Ai) (feedback : Feedback)
  (rules : ClassificationRules) (out out' : console) (response : string)
  (result : value) (res : Classified) :
  ai "@cf/meta/llama-3.1-70b-instruct" (classification_messages feedback rules)
    = Ok response ->
  parseAIResponse response out = (result, out') ->
  classifyFeedback ai feedback rules out = (Ok res, out') ->
  (forall cls,
      get result "classification" = Ok (VObj cls) ->
      unique_keys cls = true ->
      own "feedback_id" (classification res) =
      Some (match own "feedback_id" cls with
            | Some supplied => supplied
            | None => VStr (id feedback)
            end))
  /\ (forall sl i s,
        get result "signals" = Ok (VArr sl) ->
        nth_error sl i = Some (VObj s) ->
        unique_keys s = true ->
        exists s',
          nth_error (signals res) i = Some s'
          /\ own "feedback_id" s' =
             Some (match own "feedback_id" s with
                   | Some supplied => supplied
                   | None => VStr (id feedback)
                   end)).
Proof.
  intros Hai HP HC.
  unfold FeedbackClassifier.classifyFeedback in HC. rewrite Hai, HP in HC.
  inversion HC as [HA]. clear HC.
  apply assemble_ok in HA. destruct HA as [c [route [_ [_ HB]]]].
  apply build_ok in HB.
  destruct HB as [c' [confidence [reasoning [sl' [G [_ [_ [GS [EC ES]]]]]]]]].
  split.
  - intros cls G' U. rewrite G in G'. inversion G'; subst c'.
    rewrite EC, !own_define. simpl.
    apply own_feedback_id_spread, U.
  - intros sl i s GS' N U. rewrite GS in GS'. inversion GS'; subst sl'.
    exists (spread [("feedback_id", VStr (id feedback))] (VObj s)). split.
    + rewrite ES, nth_error_map, N. reflexivity.
    + apply own_feedback_id_spread, U.
Qed.

(** C3 (amended): for every response whose extracted JSON text parses to
    an object with classification urgency 5, sentiment -2, impact 5,
    actionability 3, two signal objects, confidence 0.9 and reasoning "text",
    [classifyFeedback] returns a record with exactly those four values, that
    confidence and reasoning, the route [determineRoute] gives for that
    vector under the supplied rules, and two signals that keep the fields of
    the parsed signal objects, each with the input item's identifier when
    the signal object has no [feedback_id] key of its own. *)
Theorem classifyFeedback_round_trip (ai : Ai) (feedback : Feedback)
  (rules : ClassificationRules) (out : console) (response m : string)
  (parsed : value) (cls s1 s2 : props) :
  let v := {| urgency := 5; sentiment := -2; impact := 5; actionability := 3 |} in
  ai "@cf/meta/llama-3.1-70b-instruct" (classification_messages feedback rules)
    = Ok response ->
  delimited_text "{" "}" response = Some m ->
  json_parse m = Ok parsed ->
  get parsed "classification" = Ok (VObj cls) ->
  unique_keys cls = true ->
  own "urgency" cls = Some (VNum 5) ->
  own "sentiment" cls = Some (VNum (-2)) ->
  own "impact" cls = Some (VNum 5) ->
  own "actionability" cls = Some (VNum 3) ->
  get parsed "signals" = Ok (VArr [VObj s1; VObj s2]) ->
  unique_keys s1 = true ->
  unique_keys s2 = true ->
  get parsed "confidence" = Ok (VNum 0.9) ->
  get parsed "reasoning" = Ok (VStr "text") ->
  exists res r1 r2,
    classifyFeedback ai feedback rules out = (Ok res, out)
    /\ own "urgency" (classification res) = Some (VNum 5)
    /\ own "sentiment" (classification res) = Some (VNum (-2))
    /\ own "impact" (classification res) = Some (VNum 5)
    /\ own "actionability" (classification res) = Some (VNum 3)
    /\ own "confidence" (classification res) = Some (VNum 0.9)
    /\ own "reasoning" (classification res) = Some (VStr "text")
    /\ own "route" (classification res) = Some (VStr (route_string v rules))
    /\ determineRoute (vector_value v) rules = Ok (route_string v rules)
    /\ signals res = [r1; r2]
    /\ (forall k, k <> "feedback_id" -> own k r1 = own k s1)
    /\ (forall k, k <> "feedback_id" -> own k r2 = own k s2)
    /\ (own "feedback_id" s1 = None ->
        own "feedback_id" r1 = Some (VStr (id feedback)))
    /\ (own "feedback_id" s2 = None ->
        own "feedback_id" r2 = Some (VStr (id feedback))).
Proof.
  intros v Hai D P G U Hu Hs Hi Ha GS U1 U2 GC GR.
  set (stamp := [("feedback_id", VStr (id feedback))]).
  exists {| classification :=
              define "reasoning" (VStr "text")
                (define "confidence" (VNum 0.9)
                   (define "route" (VStr (route_string v rules))
                      (spread stamp (VObj cls))));
            signals := [spread stamp (VObj s1); spread stamp (VObj s2)] |},
         (spread stamp (VObj s1)), (spread stamp (VObj s2)).
  assert (Other : forall k s, k <> "feedback_id" -> unique_keys s = true ->
                              own k (spread stamp (VObj s)) = own k s).
  { intros k s Hk Us. rewrite (own_spread _ _ _ Us).
    destruct (own k s); [reflexivity|].
    unfold stamp. cbn [own].
    destruct ("feedback_id" =? k) eqn:E; [|reflexivity].
    apply String.eqb_eq in E. congruence. }
  split.
  - unfold FeedbackClassifier.classifyFeedback. rewrite Hai.
    unfold FeedbackClassifier.parseAIResponse.
    rewrite (try_parse_accepted response m parsed D P);
      [|exists cls, 5%float; auto].
    unfold FeedbackClassifier.assemble. rewrite G. unfold bind at 1.
    rewrite (determineRoute_numeric cls v rules Hu Hs Hi Ha). unfold bind at 1.
    unfold build. rewrite G, GC, GR, GS. reflexivity.
  - cbn [classification signals]. rewrite !own_define.
    rewrite !Other by (trivial; discriminate).
    repeat split; trivial.
    + apply determineRoute_vector.
    + intros k Hk. apply Other; trivial.
    + intros k Hk. apply Other; trivial.
    + intros N. unfold stamp. rewrite own_spread_absent; trivial.
    + intros N. unfold stamp. rewrite own_spread_absent; trivial.
Qed.

(** *** Theme extraction *)

Lemma substring_prefix_idempotent (n : nat) (s : string) :
  substring 0 n (substring 0 n s) = substring 0 n s.
Proof.
  revert s. induction n as [|n IH]; intros s.
  - rewrite !substring_0_0. reflexivity.
  - destruct s as [|a s]; simpl; [reflexivity|]. rewrite IH. reflexivity.
Qed.

Lemma feedbackSummary_clip (items : list Feedback) :
  feedbackSummary (map clip (firstn 20 items)) = feedbackSummary items.
Proof.
  unfold feedbackSummary. f_equal.
  rewrite firstn_map, firstn_firstn, Nat.min_id, map_map.
  apply map_ext. intros f. unfold clip. cbn [title content].
  rewrite substring_prefix_idempotent. reflexivity.
Qed.

(** C8: [extractThemes] builds its prompt from at most the first 20 items
    and the first 200 code units of each content; it parses the text from
    the first opening bracket to the last closing bracket of the response;
    when there is no such text or it does not parse, it returns the empty
    list and does not throw. *)
Theorem extractThemes_contract (ai : Ai) (items : list Feedback)
  (limit : option float) (out : console) :
  extractThemes ai items limit out
    = extractThemes ai (map clip (firstn 20 items)) limit out
  /\ (forall response,
        items <> [] ->
        ai "@cf/meta/llama-3.1-8b-instruct"
           (themes_messages number_to_string items (default_limit limit))
          = Ok response ->
        extractThemes ai items limit out =
        match delimited_text "[" "]" response with
        | None => (Ok (VArr []), out)
        | Some m =>
            match json_parse m with
            | Ok themes => (Ok themes, out)
            | Throw e =>
                (Ok (VArr []),
                 (out ++ [[LStr "Failed to parse themes:"; LExn e]])%list)
            end
        end)
  /\ (forall response,
        ai "@cf/meta/llama-3.1-8b-instruct"
           (themes_messages number_to_string items (default_limit limit))
          = Ok response ->
        exists themes out',
          extractThemes ai items limit out = (Ok themes, out')
          /\ (delimited_text "[" "]" response = None
              \/ (exists m e, delimited_text "[" "]" response = Some m
                              /\ json_parse m = Throw e) ->
              themes = VArr [])).
Proof.
  assert (Run : forall response,
             items <> [] ->
             ai "@cf/meta/llama-3.1-8b-instruct"
                (themes_messages number_to_string items (default_limit limit))
               = Ok response ->
             extractThemes ai items limit out =
             match delimited_text "[" "]" response with
             | None => (Ok (VArr []), out)
             | Some m =>
                 match json_parse m with
                 | Ok themes => (Ok themes, out)
                 | Throw e =>
                     (Ok (VArr []),
                      (out ++ [[LStr "Failed to parse themes:"; LExn e]])%list)
                 end
             end).
  { intros response NE Hai. unfold FeedbackClassifier.extractThemes. cbv zeta.
    destruct items as [|f items']; [congruence|].
    cbn [List.length Nat.eqb]. rewrite Hai.
    unfold try_themes. rewrite regex_match_delimited.
    destruct (delimited_text "[" "]" response) as [m|]; [|reflexivity].
    unfold bind. destruct (json_parse m); reflexivity. }
  split; [|split].
  - unfold FeedbackClassifier.extractThemes, themes_messages, themes_prompt. cbv zeta.
    rewrite feedbackSummary_clip.
    destruct items as [|f items']; reflexivity.
  - exact Run.
  - intros response Hai.
    destruct items as [|f items'].
    + exists (VArr []), out. split; [reflexivity | auto].
    + rewrite (Run response) by (trivial; discriminate).
      destruct (delimited_text "[" "]" response) as [m|].
      * destruct (json_parse m) as [themes|e] eqn:P.
        -- exists themes, out. split; [reflexivity|].
           intros [N | [m' [e [D P']]]]; [discriminate|].
           inversion D; subst m'. congruence.
        -- eexists _, _. split; [reflexivity | auto].
      * exists (VArr []), out. split; [reflexivity | auto].
Qed.

End Properties.

(* ================================================================== *)
(** ** The pipeline on the reference engine *)

(** Prose around the object is dropped by the extraction. *)
Lemma extraction_tolerates_prose (before body after : string) :
  first_index "{" before = None ->
  last_index "}" after = None ->
  regex_match "{" "}" (before ++ "{" ++ body ++ "}" ++ after)
  = Some ("{" ++ body ++ "}").
Proof.
  intros B A.
  assert (Tail : forall s, match_star_then "}" (s ++ String "}"%char after)
                           = Some (s ++ "}")).
  { induction s as [|a s IH]; simpl.
    - rewrite match_star_then_last, A. reflexivity.
    - rewrite IH. reflexivity. }
  induction before as [|a before IH]; simpl.
  - rewrite Tail. reflexivity.
  - simpl in B. destruct (a =? "{")%char; [discriminate|].
    apply IH. destruct (first_index "{" before); [discriminate | reflexivity].
Qed.

(** The extraction does not balance braces. *)
Example extraction_is_not_balanced :
  regex_match "{" "}" "see {a} and } then {b" = Some "{a} and }".
Proof. reflexivity. Qed.

(** Whatever the reference [JSON.parse] returns, the objects read from it
    have distinct keys. *)
Lemma parsed_object_unique_keys (text k : string) (parsed : value) (o : props) :
  Runtime.JSON_parse text = Ok parsed ->
  get parsed k = Ok (VObj o) ->
  unique_keys o = true.
Proof.
  intros P G. apply JSON_parse_well_formed in P.
  pose proof (get_well_formed parsed (VObj o) k P G) as W.
  simpl in W. apply andb_true_iff in W. apply W.
Qed.

(** The quick-win scenario of the specification. *)
Example quick_win_only :
  route (vector_value {| urgency := 1; sentiment := 0; impact := 1; actionability := 5 |})
        defaultRules
  = Ok "quick_win_backlog".
Proof. reflexivity. Qed.

(** All three predicates can hold at once. *)
Example all_three_labels :
  route (vector_value {| urgency := 3; sentiment := -2; impact := 5; actionability := 5 |})
        {| routing_rules := {|
             immediate_engineering :=
               {| ImmediateEngineering.urgency_min := 3;
                  ImmediateEngineering.impact_min := 4 |};
             quick_win_backlog :=
               {| QuickWinBacklog.urgency_max := 3;
                  QuickWinBacklog.actionability_min := 4 |};
             trust_risk :=
               {| TrustRisk.sentiment_max := -1; TrustRisk.impact_min := 3 |} |};
           urgency_keywords := urgency_keywords defaultRules;
           impact_signals := impact_signals defaultRules |}
  = Ok "immediate_engineering,quick_win_backlog,trust_risk".
Proof. reflexivity. Qed.

(** Axes that are not numbers are coerced by the comparisons: a numeric
    string and a one-element array count as their number, a missing axis as
    NaN, which satisfies no predicate. *)
Example coerced_axes :
  route (VObj [("urgency", VStr "5"); ("impact", VArr [VNum 4])]) defaultRules
  = Ok "immediate_engineering".
Proof. vm_compute. reflexivity. Qed.

(** An accepted response without a signals array passes validation and
    routing, and then fails where the signals are mapped. *)
Example accepted_without_signals :
  classify (answering (quoted "{'classification': {'urgency': 5}}"))
           sample_feedback defaultRules []
  = (Throw TypeError, []).
Proof. vm_compute. reflexivity. Qed.

(** The no-match theorem at the no-match scenario of the specification. *)
Lemma determineRoute_total_witness :
  let c := {| urgency := 2; sentiment := 0; impact := 1; actionability := 2 |} in
  matched_labels c defaultRules = []
  /\ route (vector_value c) defaultRules = Ok "standard_backlog".
Proof.
  intros c. split; [reflexivity|].
  destruct (determineRoute_total Runtime.StringToNumber Runtime.NumberToString
              c defaultRules) as [[r [E [_ S]]] _].
  unfold route. rewrite E, (S eq_refl). reflexivity.
Defined.

(** The fallback theorem at the response "{invalid json": nothing can be
    extracted, and the conservative default comes back. *)
Lemma classifyFeedback_fallback_witness :
  (answering "{invalid json" "@cf/meta/llama-3.1-70b-instruct"
     (classification_messages sample_feedback defaultRules)
   = Ok "{invalid json"
   /\ malformed Runtime.JSON_parse "{invalid json")
  /\ fst (classify (answering "{invalid json") sample_feedback defaultRules [])
     = Ok {| classification := fallback_classification sample_feedback defaultRules;
             signals := [] |}.
Proof.
  assert (H1 : answering "{invalid json" "@cf/meta/llama-3.1-70b-instruct"
                 (classification_messages sample_feedback defaultRules)
               = Ok "{invalid json") by reflexivity.
  assert (H2 : malformed Runtime.JSON_parse "{invalid json")
    by (left; reflexivity).
  split; [split; assumption|].
  destruct (classifyFeedback_fallback Runtime.JSON_parse Runtime.StringToNumber
              Runtime.NumberToString (answering "{invalid json")
              sample_feedback defaultRules [] "{invalid json" H1 H2)
    as [[e E] _].
  unfold classify. rewrite E. reflexivity.
Defined.

(** The round-trip theorem at a response with prose around the object. *)
Lemma classifyFeedback_round_trip_witness :
  exists res,
    classify (answering well_formed_response) sample_feedback defaultRules []
      = (Ok res, [])
    /\ own "urgency" (classification res) = Some (VNum 5)
    /\ own "route" (classification res)
       = Some (VStr "immediate_engineering,trust_risk")
    /\ List.length (signals res) = 2.
Proof.
  destruct (classifyFeedback_round_trip Runtime.JSON_parse Runtime.StringToNumber
              Runtime.NumberToString (answering well_formed_response)
              sample_feedback defaultRules [] well_formed_response
              (quoted "{'classification': {'urgency': 5, 'sentiment': -2, 'impact': 5, 'actionability': 3}, 'signals': [{'signal_type': 'feature_area', 'signal_value': 'tunnels', 'confidence': 0.8}, {'signal_type': 'issue_category', 'signal_value': 'bug', 'confidence': 0.7}], 'confidence': 0.9, 'reasoning': 'text'}")
              (VObj [("classification",
                      VObj [("urgency", VNum 5); ("sentiment", VNum (-2));
                            ("impact", VNum 5); ("actionability", VNum 3)]);
                     ("signals",
                      VArr [VObj [("signal_type", VStr "feature_area");
                                  ("signal_value", VStr "tunnels");
                                  ("confidence", VNum 0.8)];
                            VObj [("signal_type", VStr "issue_category");
                                  ("signal_value", VStr "bug");
                                  ("confidence", VNum 0.7)]]);
                     ("confidence", VNum 0.9);
                     ("reasoning", VStr "text")])
              [("urgency", VNum 5); ("sentiment", VNum (-2));
               ("impact", VNum 5); ("actionability", VNum 3)]
              [("signal_type", VStr "feature_area");
               ("signal_value", VStr "tunnels"); ("confidence", VNum 0.8)]
              [("signal_type", VStr "issue_category");
               ("signal_value", VStr "bug"); ("confidence", VNum 0.7)])
    as [res [r1 [r2 [E [U [_ [_ [_ [_ [_ [R [_ [S _]]]]]]]]]]]]];
    try (vm_compute; reflexivity).
  exists res. split; [exact E|]. split; [exact U|]. split; [exact R|].
  rewrite S. reflexivity.
Defined.

(** C3 as stated fails: this response is a well-formed object with the
    classification, confidence and reasoning of the claim and two signal
    objects, and its first signal comes back with the identifier the model
    wrote, not with the input item's. *)
Lemma round_trip_signal_id_counterexample :
  delimited_text "{" "}" foreign_signal_response = Some foreign_signal_response
  /\ Runtime.JSON_parse foreign_signal_response
  = Ok (VObj [("classification",
               VObj [("urgency", VNum 5); ("sentiment", VNum (-2));
                     ("impact", VNum 5); ("actionability", VNum 3)]);
              ("signals",
               VArr [VObj [("feedback_id", VStr "gh-999");
                           ("signal_type", VStr "feature_area");
                           ("signal_value", VStr "tunnels")];
                     VObj [("signal_type", VStr "issue_category");
                           ("signal_value", VStr "bug")]]);
              ("confidence", VNum 0.9);
              ("reasoning", VStr "text")])
  /\ classify (answering foreign_signal_response) sample_feedback defaultRules []
     = (Ok {| classification :=
                [("feedback_id", VStr "gh-001");
                 ("urgency", VNum 5); ("sentiment", VNum (-2));
                 ("impact", VNum 5); ("actionability", VNum 3);
                 ("route", VStr "immediate_engineering,trust_risk");
                 ("confidence", VNum 0.9); ("reasoning", VStr "text")];
              signals :=
                [[("feedback_id", VStr "gh-999");
                  ("signal_type", VStr "feature_area");
                  ("signal_value", VStr "tunnels")];
                 [("feedback_id", VStr "gh-001");
                  ("signal_type", VStr "issue_category");
                  ("signal_value", VStr "bug")]] |},
        [])
  /\ id sample_feedback = "gh-001"
  /\ VStr "gh-999" <> VStr (id sample_feedback).
Proof.
  split; [vm_compute; reflexivity|].
  split; [vm_compute; reflexivity|].
  split; [vm_compute; reflexivity|].
  split; [reflexivity | discriminate].
Qed.

(** The validation theorem at a response whose sentiment is a string and
    whose impact is out of range: it is accepted and routed as it is. *)
Lemma validation_checks_urgency_only_witness :
  let o := [("urgency", VNum 5); ("sentiment", VStr "angry"); ("impact", VNum 99)] in
  let parsed := VObj [("classification", VObj o); ("signals", VArr [])] in
  Runtime.JSON_parse unchecked_axes_response = Ok parsed
  /\ invalid_structure parsed = Ok false
  /\ classify (answering unchecked_axes_response) sample_feedback defaultRules []
     = (r <- route (VObj o) defaultRules ;; build sample_feedback parsed r, []).
Proof.
  intros o parsed.
  pose proof (validation_checks_urgency_only Runtime.JSON_parse
                Runtime.StringToNumber Runtime.NumberToString parsed)
    as [V [_ C]].
  split; [vm_compute; reflexivity|]. split.
  - apply V. exists o, 5%float. split; reflexivity.
  - apply (C (answering unchecked_axes_response) sample_feedback defaultRules []
             unchecked_axes_response unchecked_axes_response o 5%float);
      vm_compute; reflexivity.
Defined.

(** The propagation theorem at a model call that times out. *)
Lemma classifyFeedback_propagates_invocation_failure_witness :
  failing "timeout" "@cf/meta/llama-3.1-70b-instruct"
    (classification_messages sample_feedback defaultRules)
  = Throw (Rejected "timeout")
  /\ classify (failing "timeout") sample_feedback defaultRules []
     = (Throw (Rejected "timeout"), []).
Proof.
  split; [reflexivity|].
  apply (classifyFeedback_propagates_invocation_failure Runtime.JSON_parse
           Runtime.StringToNumber Runtime.NumberToString
           (failing "timeout") sample_feedback defaultRules []).
  reflexivity.
Defined.

(** The determinism theorem at two runs that start from different logs. *)
Lemma classifyFeedback_deterministic_witness :
  fst (classify (answering well_formed_response) sample_feedback defaultRules [])
  = fst (classify (answering well_formed_response) sample_feedback defaultRules
           [[LStr "earlier entry"]]).
Proof.
  apply (classifyFeedback_deterministic Runtime.JSON_parse
           Runtime.StringToNumber Runtime.NumberToString
           (answering well_formed_response) (answering well_formed_response)
           sample_feedback defaultRules [] [[LStr "earlier entry"]]
           well_formed_response); reflexivity.
Defined.

(** The precedence theorem at a response that names identifiers of its own
    in the classification object and in the first signal. *)
Lemma model_feedback_id_overrides_stamp_witness :
  exists res first second,
    classify (answering foreign_id_response) sample_feedback defaultRules []
      = (Ok res, [])
    /\ own "feedback_id" (classification res) = Some (VStr "gh-999")
    /\ signals res = [first; second]
    /\ own "feedback_id" first = Some (VStr "gh-998")
    /\ own "feedback_id" second = Some (VStr "gh-001").
Proof.
  destruct (classify (answering foreign_id_response) sample_feedback
              defaultRules []) as [[res|e] out'] eqn:E;
    [|vm_compute in E; discriminate].
  assert (O : out' = []) by (vm_compute in E; congruence).
  subst out'.
  destruct (model_feedback_id_overrides_stamp Runtime.JSON_parse
              Runtime.StringToNumber Runtime.NumberToString
              (answering foreign_id_response) sample_feedback defaultRules
              [] [] foreign_id_response
              (VObj [("classification",
                      VObj [("feedback_id", VStr "gh-999");
                            ("urgency", VNum 4); ("sentiment", VNum 0);
                            ("impact", VNum 2); ("actionability", VNum 3)]);
                     ("signals",
                      VArr [VObj [("feedback_id", VStr "gh-998");
                                  ("signal_type", VStr "user_segment");
                                  ("signal_value", VStr "enterprise")];
                            VObj [("signal_type", VStr "issue_category");
                                  ("signal_value", VStr "bug")]]);
                     ("confidence", VNum 0.5);
                     ("reasoning", VStr "r")])
              res) as [C S];
    [reflexivity | vm_compute; reflexivity | exact E |].
  specialize (C _ eq_refl eq_refl).
  destruct (S _ 0 _ eq_refl eq_refl eq_refl) as [first [N1 F1]].
  destruct (S _ 1 _ eq_refl eq_refl eq_refl) as [second [N2 F2]].
  exists res, first, second.
  split; [reflexivity|]. split; [exact C|].
  split; [|split; [exact F1 | exact F2]].
  assert (L : signals res
              = [[("feedback_id", VStr "gh-998");
                  ("signal_type", VStr "user_segment");
                  ("signal_value", VStr "enterprise")];
                 [("feedback_id", VStr "gh-001");
                  ("signal_type", VStr "issue_category");
                  ("signal_value", VStr "bug")]])
    by (vm_compute in E; inversion E; reflexivity).
  rewrite L in N1, N2 |- *. simpl in N1, N2.
  inversion N1. inversion N2. reflexivity.
Defined.

(** The theme extraction theorem at a response without brackets and at one
    whose bracketed text is not JSON. *)
Lemma extractThemes_contract_witness :
  themes (answering "No themes found.") [sample_feedback] None []
  = (Ok (VArr []), [])
  /\ themes (answering (quoted "['tunnels', and more]")) [sample_feedback] None []
     = (Ok (VArr []), [[LStr "Failed to parse themes:"; LExn SyntaxError]]).
Proof.
  pose proof (extractThemes_contract Runtime.JSON_parse Runtime.NumberToString
                (answering "No themes found.") [sample_feedback] None [])
    as [_ [R1 _]].
  pose proof (extractThemes_contract Runtime.JSON_parse Runtime.NumberToString
                (answering (quoted "['tunnels', and more]"))
                [sample_feedback] None [])
    as [_ [R2 _]].
  split.
  - unfold themes. rewrite (R1 "No themes found."); [reflexivity | discriminate | reflexivity].
  - unfold themes.
    rewrite (R2 (quoted "['tunnels', and more]"));
      [reflexivity | discriminate | reflexivity].
Defined.

(* ================================================================== *)
(** ** Order of binary64 numbers *)

Lemma SFleb_trans (a b c : spec_float) :
  SFleb a b = true -> SFleb b c = true -> SFleb a c = true.
Proof.
  unfold SFleb.
  destruct a as [sa|sa| |sa ma ea], b as [sb|sb| |sb mb eb], c as [sc|sc| |sc mc ec];
    simpl; try discriminate; try reflexivity;
    repeat match goal with s : bool |- _ => destruct s end;
    simpl; try discriminate; try reflexivity;
    change (Pos.compare_cont Eq) with Pos.compare;
    destruct (Z.compare_spec ea eb), (Z.compare_spec eb ec), (Z.compare_spec ea ec);
    try lia; try discriminate; try reflexivity; subst;
    destruct (Pos.compare_spec ma mb), (Pos.compare_spec mb mc), (Pos.compare_spec ma mc);
    simpl; try lia; try discriminate; try reflexivity.
Qed.

Lemma SFleb_SFltb (a b : spec_float) :
  SFleb a b = true -> SFltb b a = false.
Proof.
  unfold SFleb, SFltb.
  destruct a as [sa|sa| |sa ma ea], b as [sb|sb| |sb mb eb];
    simpl; try discriminate; try reflexivity;
    repeat match goal with s : bool |- _ => destruct s end;
    simpl; try discriminate; try reflexivity;
    change (Pos.compare_cont Eq) with Pos.compare;
    destruct (Z.compare_spec ea eb), (Z.compare_spec eb ea);
    try lia; try discriminate; try reflexivity; subst;
    destruct (Pos.compare_spec ma mb), (Pos.compare_spec mb ma);
    simpl; try lia; try discriminate; try reflexivity.
Qed.

Lemma leb_trans (x y z : float) :
  PrimFloat.leb x y = true -> PrimFloat.leb y z = true -> PrimFloat.leb x z = true.
Proof. rewrite !leb_spec. apply SFleb_trans. Qed.

Lemma leb_ltb (x y : float) :
  PrimFloat.leb x y = true -> PrimFloat.ltb y x = false.
Proof. rewrite leb_spec, ltb_spec. apply SFleb_SFltb. Qed.

Lemma leb_nan_r (x : float) : PrimFloat.leb x nan = false.
Proof. rewrite leb_spec. unfold SFleb. destruct (Prim2SF x); reflexivity. Qed.

Lemma leb_nan_l (x : float) : PrimFloat.leb nan x = false.
Proof. rewrite leb_spec. reflexivity. Qed.

(* ================================================================== *)
(** ** Substring search *)

Lemma prefix_app (s t : string) : prefix s (s ++ t) = true.
Proof.
  induction s as [|a s IH]; simpl; [destruct t; reflexivity|].
  destruct (ascii_dec a a) as [_|N]; [exact IH | congruence].
Qed.

Lemma includes_prefix (s t : string) : prefix t s = true -> includes s t = true.
Proof. intros H. destruct s; cbn [includes]; rewrite H; reflexivity. Qed.

Lemma includes_app (before s after : string) :
  includes (before ++ s ++ after) s = true.
Proof.
  induction before as [|a before IH].
  - change (includes (s ++ after) s = true).
    apply includes_prefix, prefix_app.
  - cbn [append includes].
    destruct (prefix s (String a (before ++ s ++ after))); [reflexivity | exact IH].
Qed.

(** The substring test reads the labels back from a route. *)
Lemma route_string_decodes (c : ClassificationVector) (rules : ClassificationRules) :
  let r := routing_rules rules in
  includes (route_string c rules) "immediate_engineering"
  = ge (urgency c) (ImmediateEngineering.urgency_min (immediate_engineering r))
    && ge (impact c) (ImmediateEngineering.impact_min (immediate_engineering r))
  /\ includes (route_string c rules) "quick_win_backlog"
     = le (urgency c) (QuickWinBacklog.urgency_max (quick_win_backlog r))
       && ge (actionability c) (QuickWinBacklog.actionability_min (quick_win_backlog r))
  /\ includes (route_string c rules) "trust_risk"
     = le (sentiment c) (TrustRisk.sentiment_max (trust_risk r))
       && ge (impact c) (TrustRisk.impact_min (trust_risk r)).
Proof.
  intros r. unfold route_string, matched_labels, predicates. fold r.
  destruct (ge (urgency c) _ && _), (le (urgency c) _ && _), (le (sentiment c) _ && _);
    vm_compute; repeat split.
Qed.

(* ================================================================== *)
(** ** Further properties of the pipeline, for every engine *)

Section FurtherProperties.

Variable json_parse : string -> result value.
Variable string_to_number : string -> float.
Variable number_to_string : float -> string.

#[local] Abbreviation to_string := (FeedbackClassifier.to_string number_to_string).
#[local] Abbreviation to_number :=
  (FeedbackClassifier.to_number string_to_number number_to_string).
#[local] Abbreviation js_ge :=
  (FeedbackClassifier.js_ge string_to_number number_to_string).
#[local] Abbreviation js_le :=
  (FeedbackClassifier.js_le string_to_number number_to_string).
#[local] Abbreviation determineRoute :=
  (FeedbackClassifier.determineRoute string_to_number number_to_string).
#[local] Abbreviation try_parse := (FeedbackClassifier.try_parse json_parse).
#[local] Abbreviation parseAIResponse :=
  (FeedbackClassifier.parseAIResponse json_parse).
#[local] Abbreviation assemble :=
  (FeedbackClassifier.assemble string_to_number number_to_string).
#[local] Abbreviation classifyFeedback :=
  (FeedbackClassifier.classifyFeedback json_parse string_to_number number_to_string).
#[local] Abbreviation extractThemes :=
  (FeedbackClassifier.extractThemes json_parse number_to_string).
#[local] Abbreviation themes_messages :=
  (FeedbackClassifier.themes_messages number_to_string).

(** *** What the coercions can throw *)

Lemma get_throws (v : value) (k : string) (e : exn) :
  get v k = Throw e -> e = TypeError.
Proof.
  destruct v as [| |b|n|s|l|o]; cbn [get]; intros H;
    try discriminate; try (inversion H; reflexivity).
  - destruct (k =? "length"); [discriminate|].
    destruct (array_index k) as [i|]; [|discriminate].
    destruct (string_nth (N.to_nat i) s); discriminate.
  - destruct (k =? "length"); [discriminate|].
    destruct (array_index k); discriminate.
  - destruct (own k o); discriminate.
Qed.

Lemma to_string_throws (v : value) :
  forall e, to_string v = Throw e -> e = TypeError.
Proof.
  induction v as [| |b|n|s|l IH|o IH] using value_induction;
    cbn [FeedbackClassifier.to_string]; intros e H; try discriminate.
  - revert e H. induction IH as [|x l Hx Hl IHl]; intros e H; [discriminate|].
    unfold bind at 1 in H.
    assert (Elt : forall e', match x with
                             | VUndefined => Ok ""
                             | VNull => Ok ""
                             | _ => to_string x
                             end = Throw e' -> e' = TypeError).
    { intros e'. destruct x; try discriminate; apply Hx. }
    destruct (match x with
              | VUndefined => Ok ""
              | VNull => Ok ""
              | _ => to_string x
              end) as [sx|e'] eqn:E.
    + destruct l as [|y l']; [discriminate|].
      unfold bind in H.
      match type of H with
      | match ?j with _ => _ end = _ => destruct j as [sr|e''] eqn:J
      end; [discriminate|].
      inversion H; subst e''. apply IHl. exact J.
    + inversion H; subst e'. apply Elt. reflexivity.
  - destruct (has_own "toString" o); [inversion H; reflexivity | discriminate].
Qed.

Lemma to_number_throws (v : value) (e : exn) :
  to_number v = Throw e -> e = TypeError.
Proof.
  destruct v; cbn [FeedbackClassifier.to_number]; try discriminate;
    unfold bind; intros H;
    match type of H with
    | match ?t with _ => _ end = _ => destruct t as [s|e'] eqn:T
    end; try discriminate;
    inversion H; subst e'; apply (to_string_throws _ _ T).
Qed.

Lemma read_ge_throws (c : value) (k : string) (y : float) (e : exn) :
  (x <- get c k ;; js_ge x y) = Throw e -> e = TypeError.
Proof.
  unfold bind, FeedbackClassifier.js_ge, bind. intros H.
  destruct (get c k) as [x|e'] eqn:G.
  - destruct (to_number x) as [n|e''] eqn:N; [discriminate|].
    inversion H; subst e''. apply (to_number_throws _ _ N).
  - inversion H; subst e'. apply (get_throws _ _ _ G).
Qed.

Lemma read_le_throws (c : value) (k : string) (y : float) (e : exn) :
  (x <- get c k ;; js_le x y) = Throw e -> e = TypeError.
Proof.
  unfold bind, FeedbackClassifier.js_le, bind. intros H.
  destruct (get c k) as [x|e'] eqn:G.
  - destruct (to_number x) as [n|e''] eqn:N; [discriminate|].
    inversion H; subst e''. apply (to_number_throws _ _ N).
  - inversion H; subst e'. apply (get_throws _ _ _ G).
Qed.

Lemma and_then_throws (a b : result bool) (e : exn) :
  (forall e', a = Throw e' -> e' = TypeError) ->
  (forall e', b = Throw e' -> e' = TypeError) ->
  FeedbackClassifier.and_then a b = Throw e -> e = TypeError.
Proof.
  unfold FeedbackClassifier.and_then, bind. intros Ha Hb H.
  destruct a as [[|]|e'].
  - apply Hb, H.
  - discriminate.
  - inversion H; subst e'. apply Ha. reflexivity.
Qed.

(** Whatever it is given, [determineRoute] returns one of eight strings or
    throws a [TypeError]. *)
Lemma determineRoute_outcomes (classification : value) (rules : ClassificationRules) :
  match determineRoute classification rules with
  | Ok r => In r route_range
  | Throw e => e = TypeError
  end.
Proof.
  unfold FeedbackClassifier.determineRoute.
  destruct (FeedbackClassifier.and_then
              (bind (get classification "urgency") _)
              (bind (get classification "impact") _)) as [b1|e1] eqn:E1;
    cbn [bind].
  2: { apply (and_then_throws _ _ _
                (read_ge_throws _ _ _) (read_ge_throws _ _ _) E1). }
  destruct (FeedbackClassifier.and_then
              (bind (get classification "urgency") _)
              (bind (get classification "actionability") _)) as [b2|e2] eqn:E2;
    cbn [bind].
  2: { apply (and_then_throws _ _ _
                (read_le_throws _ _ _) (read_ge_throws _ _ _) E2). }
  destruct (FeedbackClassifier.and_then
              (bind (get classification "sentiment") _)
              (bind (get classification "impact") _)) as [b3|e3] eqn:E3;
    cbn [bind].
  2: { apply (and_then_throws _ _ _
                (read_le_throws _ _ _) (read_ge_throws _ _ _) E3). }
  destruct b1, b2, b3; vm_compute; tauto.
Qed.

(** X1 ([determineRoute]).  On every JavaScript value and every rule set,
    [determineRoute] either returns one of eight strings (the three labels
    joined by commas in their fixed order, or [standard_backlog]), never the
    empty string, or throws a [TypeError]; it throws nothing else. *)
Theorem determineRoute_range (classification : value) (rules : ClassificationRules) :
  match determineRoute classification rules with
  | Ok r => In r route_range /\ r <> ""
  | Throw e => e = TypeError
  end.
Proof.
  pose proof (determineRoute_outcomes classification rules) as H.
  destruct (determineRoute classification rules) as [r|e]; [|exact H].
  split; [exact H|].
  intros ->. vm_compute in H.
  repeat (destruct H as [H|H]; [discriminate|]). exact H.
Qed.

(** *** Axes that are not numbers *)

Lemma read_axis_ge (o : props) (k : string) (n y : float) :
  axis_number string_to_number (own k o) = Some n ->
  (x <- get (VObj o) k ;; js_ge x y) = Ok (PrimFloat.leb y n).
Proof.
  cbn [get]. intros H.
  destruct (own k o) as [[| |b|m|s|l|p]|]; cbn in H; inversion H; reflexivity.
Qed.

Lemma read_axis_le (o : props) (k : string) (n y : float) :
  axis_number string_to_number (own k o) = Some n ->
  (x <- get (VObj o) k ;; js_le x y) = Ok (PrimFloat.leb n y).
Proof.
  cbn [get]. intros H.
  destruct (own k o) as [[| |b|m|s|l|p]|]; cbn in H; inversion H; reflexivity.
Qed.

Lemma determineRoute_primitive (o : props) (c : ClassificationVector)
  (rules : ClassificationRules) :
  axis_number string_to_number (own "urgency" o) = Some (urgency c) ->
  axis_number string_to_number (own "sentiment" o) = Some (sentiment c) ->
  axis_number string_to_number (own "impact" o) = Some (impact c) ->
  axis_number string_to_number (own "actionability" o) = Some (actionability c) ->
  determineRoute (VObj o) rules = Ok (route_string c rules).
Proof.
  intros Hu Hs Hi Ha.
  unfold FeedbackClassifier.determineRoute.
  rewrite !(read_axis_ge o "urgency" _ _ Hu), !(read_axis_le o "urgency" _ _ Hu),
    !(read_axis_ge o "impact" _ _ Hi), !(read_axis_ge o "actionability" _ _ Ha),
    !(read_axis_le o "sentiment" _ _ Hs).
  unfold route_string, matched_labels, predicates,
    FeedbackClassifier.and_then, bind, ge, le.
  cbv zeta.
  destruct (PrimFloat.leb _ (urgency c));
    destruct (PrimFloat.leb _ (impact c));
    destruct (PrimFloat.leb (urgency c) _);
    destruct (PrimFloat.leb _ (actionability c));
    destruct (PrimFloat.leb (sentiment c) _);
    destruct (PrimFloat.leb _ (impact c));
    reflexivity.
Qed.

(** X2 ([determineRoute]).  Axes that are not numbers are coerced by the
    comparisons: when the four axes of a classification object are missing,
    [undefined], [null], booleans, numbers or strings, the route is the one
    of the vector of their numeric values (NaN for a missing or [undefined]
    axis, 0 for [null], 0 and 1 for the booleans, the engine's conversion
    for a string). *)
Theorem determineRoute_coerces_primitive_axes (o : props)
  (u s i a : float) (rules : ClassificationRules) :
  axis_number string_to_number (own "urgency" o) = Some u ->
  axis_number string_to_number (own "sentiment" o) = Some s ->
  axis_number string_to_number (own "impact" o) = Some i ->
  axis_number string_to_number (own "actionability" o) = Some a ->
  determineRoute (VObj o) rules
  = determineRoute
      (vector_value {| urgency := u; sentiment := s; impact := i; actionability := a |})
      rules.
Proof.
  intros Hu Hs Hi Ha.
  rewrite (determineRoute_primitive o
             {| urgency := u; sentiment := s; impact := i; actionability := a |}
             rules Hu Hs Hi Ha).
  symmetry. apply determineRoute_vector.
Qed.

(** X3 ([determineRoute]).  A classification object without [impact] and
    without [actionability] goes to [standard_backlog] whatever its urgency
    and sentiment: every predicate compares one of the two, and a missing
    axis compares as NaN. *)
Theorem missing_axes_route_to_standard_backlog (o : props) (u s : float)
  (rules : ClassificationRules) :
  axis_number string_to_number (own "urgency" o) = Some u ->
  axis_number string_to_number (own "sentiment" o) = Some s ->
  own "impact" o = None ->
  own "actionability" o = None ->
  determineRoute (VObj o) rules = Ok "standard_backlog".
Proof.
  intros Hu Hs Hi Ha.
  rewrite (determineRoute_primitive o
             {| urgency := u; sentiment := s; impact := nan; actionability := nan |}
             rules Hu Hs); [|rewrite Hi; reflexivity | rewrite Ha; reflexivity].
  unfold route_string, matched_labels, predicates, ge, le.
  cbn [urgency sentiment impact actionability].
  rewrite !leb_nan_r, !andb_false_r. reflexivity.
Qed.

(** *** Order properties of the rule engine *)

(** X4 ([determineRoute]).  When the quick-win ceiling on urgency lies
    strictly below the immediate-engineering floor, as it does in the
    default rules, no vector is routed to both [immediate_engineering] and
    [quick_win_backlog]. *)
Theorem immediate_excludes_quick_win (c : ClassificationVector)
  (rules : ClassificationRules) :
  PrimFloat.ltb
    (QuickWinBacklog.urgency_max (quick_win_backlog (routing_rules rules)))
    (ImmediateEngineering.urgency_min (immediate_engineering (routing_rules rules)))
  = true ->
  exists r,
    determineRoute (vector_value c) rules = Ok r
    /\ includes r "immediate_engineering" && includes r "quick_win_backlog" = false.
Proof.
  intros H. exists (route_string c rules).
  split; [apply determineRoute_vector|].
  destruct (route_string_decodes c rules) as [D1 [D2 _]].
  rewrite D1, D2. unfold ge, le.
  destruct (PrimFloat.leb _ (urgency c)) eqn:A; [|reflexivity].
  destruct (PrimFloat.leb (urgency c) _) eqn:B;
    [|rewrite andb_false_r; reflexivity].
  pose proof (leb_ltb _ _ (leb_trans _ _ _ A B)) as N. congruence.
Qed.

(** X5 ([determineRoute]).  The route is monotone in impact: raising the
    impact of a vector, all else equal, never removes a label from its
    route. *)
Theorem route_monotone_in_impact (c : ClassificationVector) (i' : float)
  (rules : ClassificationRules) (r r' label : string) :
  ge i' (impact c) = true ->
  determineRoute (vector_value c) rules = Ok r ->
  determineRoute (vector_value (with_impact c i')) rules = Ok r' ->
  In label route_labels ->
  includes r label = true ->
  includes r' label = true.
Proof.
  intros G R R' L.
  rewrite determineRoute_vector in R, R'. inversion R; inversion R'.
  destruct (route_string_decodes c rules) as [D1 [D2 D3]].
  destruct (route_string_decodes (with_impact c i') rules) as [D1' [D2' D3']].
  cbn [with_impact urgency sentiment impact actionability] in D1', D2', D3'.
  unfold ge in G.
  destruct L as [<-|[<-|[<-|[]]]].
  - rewrite D1, D1'. intros M.
    apply andb_true_iff in M. destruct M as [M1 M2].
    rewrite M1. unfold ge in *. rewrite (leb_trans _ _ _ M2 G). reflexivity.
  - rewrite D2, D2'. trivial.
  - rewrite D3, D3'. intros M.
    apply andb_true_iff in M. destruct M as [M1 M2].
    rewrite M1. unfold ge in *. rewrite (leb_trans _ _ _ M2 G). reflexivity.
Qed.

(** *** What [parseAIResponse] hands on *)

Lemma has_numeric_urgency_object (v : value) :
  has_numeric_urgency v -> exists p, v = VObj p.
Proof.
  intros [o [n [G _]]].
  destruct v as [| |b|m|s|l|p]; try (cbn in G; discriminate).
  exists p. reflexivity.
Qed.

Lemma parseAIResponse_numeric (response : string) (out : console) :
  has_numeric_urgency (fst (parseAIResponse response out)).
Proof.
  unfold FeedbackClassifier.parseAIResponse.
  pose proof (try_parse_cases json_parse response) as H.
  destruct (try_parse response) as [parsed|e]; cbn [fst].
  - apply H.
  - exists [("urgency", VNum 3); ("sentiment", VNum 0);
            ("impact", VNum 3); ("actionability", VNum 2)], 3%float.
    split; reflexivity.
Qed.

(** X6 ([parseAIResponse]).  Whatever the response text, the value that
    [parseAIResponse] returns is an object with a classification object
    whose urgency is a number; either the log is left alone, or the
    conservative default is returned and the log grows by one entry, which
    holds the error and the response text. *)
Theorem parseAIResponse_postcondition (response : string) (out : console) :
  has_numeric_urgency (fst (parseAIResponse response out))
  /\ (exists p, fst (parseAIResponse response out) = VObj p)
  /\ (snd (parseAIResponse response out) = out
      \/ (fst (parseAIResponse response out) = conservative_default
          /\ exists e,
               snd (parseAIResponse response out)
               = (out ++ [[LStr "Failed to parse AI response:"; LExn e;
                           LStr "Response:"; LStr response]])%list)).
Proof.
  split; [apply parseAIResponse_numeric|].
  split; [apply has_numeric_urgency_object, parseAIResponse_numeric|].
  unfold FeedbackClassifier.parseAIResponse.
  destruct (try_parse response) as [parsed|e]; cbn [fst snd].
  - left. reflexivity.
  - right. split; [reflexivity|]. exists e. reflexivity.
Qed.

(** *** Errors after the model has answered *)

Lemma build_throws (feedback : Feedback) (result : value) (route : string)
  (e : exn) :
  build feedback result route = Throw e -> e = TypeError.
Proof.
  unfold build, bind. intros H.
  destruct (get result "classification") as [c|e1] eqn:G1;
    [|inversion H; subst; apply (get_throws _ _ _ G1)].
  destruct (get result "confidence") as [cf|e2] eqn:G2;
    [|inversion H; subst; apply (get_throws _ _ _ G2)].
  destruct (get result "reasoning") as [rs|e3] eqn:G3;
    [|inversion H; subst; apply (get_throws _ _ _ G3)].
  destruct (get result "signals") as [s|e4] eqn:G4;
    [|inversion H; subst; apply (get_throws _ _ _ G4)].
  destruct s; cbn [array_map] in H; inversion H; reflexivity.
Qed.

Lemma assemble_throws (feedback : Feedback) (rules : ClassificationRules)
  (result : value) (e : exn) :
  assemble feedback rules result = Throw e -> e = TypeError.
Proof.
  unfold FeedbackClassifier.assemble, bind. intros H.
  destruct (get result "classification") as [c|e1] eqn:G1;
    [|inversion H; subst; apply (get_throws _ _ _ G1)].
  pose proof (determineRoute_outcomes c rules) as R.
  destruct (determineRoute c rules) as [r|e2].
  - apply (build_throws _ _ _ _ H).
  - congruence.
Qed.

(** X7 ([classifyFeedback]).  Once the model has answered, the only error
    [classifyFeedback] can throw is a [TypeError]: the errors raised while
    extracting, parsing and validating never reach the caller.  The log is
    then the one [parseAIResponse] left. *)
Theorem classifyFeedback_throws_only_TypeError (ai : Ai) (feedback : Feedback)
  (rules : ClassificationRules) (out out' : console) (response : string)
  (e : exn) :
  ai "@cf/meta/llama-3.1-70b-instruct" (classification_messages feedback rules)
    = Ok response ->
  classifyFeedback ai feedback rules out = (Throw e, out') ->
  e = TypeError /\ out' = snd (parseAIResponse response out).
Proof.
  intros Hai H.
  unfold FeedbackClassifier.classifyFeedback in H. rewrite Hai in H.
  destruct (parseAIResponse response out) as [result o] eqn:P.
  inversion H as [[A O]].
  apply assemble_throws in A. subst e.
  split; reflexivity.
Qed.

Lemma assemble_non_array_signals (feedback : Feedback) (rules : ClassificationRules)
  (result : value) :
  has_numeric_urgency result ->
  (forall sl, get result "signals" <> Ok (VArr sl)) ->
  assemble feedback rules result = Throw TypeError.
Proof.
  intros N S.
  destruct (has_numeric_urgency_object _ N) as [p ->].
  destruct (assemble feedback rules (VObj p)) as [res|e] eqn:A.
  - exfalso.
    destruct (assemble_ok _ _ _ _ _ _ A) as [c [r [_ [_ B]]]].
    destruct (build_ok _ _ _ _ B) as [c' [cf [rs [sl [_ [_ [_ [G _]]]]]]]].
    apply (S sl G).
  - apply assemble_throws in A. subst e. reflexivity.
Qed.

(** X8 ([classifyFeedback]).  A response that passes validation and whose
    [signals] is not an array is not replaced by the conservative default:
    [classifyFeedback] throws a [TypeError], and nothing is logged. *)
Theorem signals_not_an_array_throws (ai : Ai) (feedback : Feedback)
  (rules : ClassificationRules) (out : console) (response : string) :
  ai "@cf/meta/llama-3.1-70b-instruct" (classification_messages feedback rules)
    = Ok response ->
  (forall sl, get (fst (parseAIResponse response out)) "signals" <> Ok (VArr sl)) ->
  classifyFeedback ai feedback rules out
  = (Throw TypeError, snd (parseAIResponse response out))
  /\ snd (parseAIResponse response out) = out.
Proof.
  intros Hai S.
  assert (O : snd (parseAIResponse response out) = out).
  { revert S. unfold FeedbackClassifier.parseAIResponse.
    destruct (try_parse response) as [parsed|e]; cbn [fst snd]; intros S;
      [reflexivity|].
    exfalso. apply (S []). reflexivity. }
  split; [|exact O].
  unfold FeedbackClassifier.classifyFeedback. rewrite Hai.
  pose proof (parseAIResponse_numeric response out) as N.
  destruct (parseAIResponse response out) as [result o]; cbn [fst snd] in *.
  rewrite (assemble_non_array_signals feedback rules result N S). reflexivity.
Qed.

(** *** The signals of a result *)


Lemma classifyFeedback_ok (ai : Ai) (feedback : Feedback)
  (rules : ClassificationRules) (out out' : console) (response : string)
  (res : Classified) :
  ai "@cf/meta/llama-3.1-70b-instruct" (classification_messages feedback rules)
    = Ok response ->
  classifyFeedback ai feedback rules out = (Ok res, out') ->
  out' = snd (parseAIResponse response out)
  /\ assemble feedback rules (fst (parseAIResponse response out)) = Ok res.
Proof.
  intros Hai H.
  unfold FeedbackClassifier.classifyFeedback in H. rewrite Hai in H.
  destruct (parseAIResponse response out) as [result o].
  inversion H. split; reflexivity.
Qed.


(** X10 ([classifyFeedback]).  The [route], [confidence] and [reasoning] of
    the returned classification are the computed route and the top-level
    [confidence] and [reasoning] of the parsed value, also when the parsed
    classification object has keys of these names: the model cannot choose
    the route, which is always one of the eight strings of
    [determineRoute]. *)
Theorem computed_fields_override_model_keys (ai : Ai) (feedback : Feedback)
  (rules : ClassificationRules) (out out' : console) (response : string)
  (res : Classified) :
  ai "@cf/meta/llama-3.1-70b-instruct" (classification_messages feedback rules)
    = Ok response ->
  classifyFeedback ai feedback rules out = (Ok res, out') ->
  exists c r confidence reasoning,
    get (fst (parseAIResponse response out)) "classification" = Ok c
    /\ determineRoute c rules = Ok r
    /\ In r route_range
    /\ get (fst (parseAIResponse response out)) "confidence" = Ok confidence
    /\ get (fst (parseAIResponse response out)) "reasoning" = Ok reasoning
    /\ own "route" (classification res) = Some (VStr r)
    /\ own "confidence" (classification res) = Some confidence
    /\ own "reasoning" (classification res) = Some reasoning.
Proof.
  intros Hai H.
  destruct (classifyFeedback_ok _ _ _ _ _ _ _ Hai H) as [_ A].
  destruct (assemble_ok _ _ _ _ _ _ A) as [c [r [Gc [R B]]]].
  destruct (build_ok _ _ _ _ B) as [c' [cf [rs [sl [_ [Gcf [Grs [_ [C _]]]]]]]]].
  exists c, r, cf, rs.
  pose proof (determineRoute_outcomes c rules) as Rg. rewrite R in Rg.
  repeat (split; [assumption|]).
  rewrite C, !own_define. cbn. repeat split; reflexivity.
Qed.

(** *** Thresholds, prose and the prompt *)

Lemma classification_messages_keywords (feedback : Feedback)
  (rules rules' : ClassificationRules) :
  urgency_keywords rules = urgency_keywords rules' ->
  impact_signals rules = impact_signals rules' ->
  classification_messages feedback rules = classification_messages feedback rules'.
Proof.
  intros K I. unfold classification_messages, buildClassificationPrompt.
  rewrite K, I. reflexivity.
Qed.

(** X11 ([classifyFeedback], [buildClassificationPrompt]).  The routing
    thresholds do not reach the model: two rule sets with the same keyword
    lists give results with the same log, the same signals and the same
    classification but for its [route]. *)
Theorem thresholds_only_move_the_route (ai : Ai) (feedback : Feedback)
  (rules rules' : ClassificationRules) (out out1 out2 : console)
  (res res' : Classified) :
  urgency_keywords rules = urgency_keywords rules' ->
  impact_signals rules = impact_signals rules' ->
  classifyFeedback ai feedback rules out = (Ok res, out1) ->
  classifyFeedback ai feedback rules' out = (Ok res', out2) ->
  out1 = out2
  /\ signals res = signals res'
  /\ (forall k, k <> "route" ->
        own k (classification res) = own k (classification res')).
Proof.
  intros K I H H'.
  pose proof (classification_messages_keywords feedback rules rules' K I) as M.
  unfold FeedbackClassifier.classifyFeedback in H, H'. rewrite <- M in H'.
  destruct (ai "@cf/meta/llama-3.1-70b-instruct"
               (classification_messages feedback rules)) as [response|e];
    [|discriminate].
  destruct (parseAIResponse response out) as [result o].
  inversion H as [[A O]]. inversion H' as [[A' O']].
  split; [congruence|].
  destruct (assemble_ok _ _ _ _ _ _ A) as [c [r [_ [_ B]]]].
  destruct (assemble_ok _ _ _ _ _ _ A') as [c' [r' [_ [_ B']]]].
  destruct (build_ok _ _ _ _ B) as [c1 [cf [rs [sl [G1 [G2 [G3 [G4 [C S]]]]]]]]].
  destruct (build_ok _ _ _ _ B') as [c2 [cf' [rs' [sl' [G1' [G2' [G3' [G4' [C' S']]]]]]]]].
  assert (c2 = c1) by congruence.
  assert (cf' = cf) by congruence.
  assert (rs' = rs) by congruence.
  assert (sl' = sl) by congruence.
  subst. split; [congruence|].
  intros k N. rewrite C, C', !own_define.
  destruct ("reasoning" =? k); [reflexivity|].
  destruct ("confidence" =? k); [reflexivity|].
  destruct ("route" =? k) eqn:E; [|reflexivity].
  apply String.eqb_eq in E. congruence.
Qed.

(** X12 ([extractThemes]).  [extractThemes] throws exactly when there is
    at least one feedback item and the model call itself throws, with the
    error of the call and the log unchanged; on the empty list it does not
    throw, whatever the model would do. *)
Theorem extractThemes_fails_only_with_the_model (ai : Ai)
  (items : list Feedback) (limit : option float) (out out' : console) (e : exn) :
  extractThemes ai items limit out = (Throw e, out')
  <-> (items <> []
       /\ ai "@cf/meta/llama-3.1-8b-instruct"
             (themes_messages items (default_limit limit)) = Throw e
       /\ out' = out).
Proof.
  unfold FeedbackClassifier.extractThemes. cbv zeta.
  destruct items as [|f items].
  - cbn [List.length Nat.eqb]. split; [discriminate|].
    intros [N _]. contradiction.
  - cbn [List.length Nat.eqb].
    destruct (ai "@cf/meta/llama-3.1-8b-instruct"
                 (themes_messages (f :: items) (default_limit limit)))
      as [response|e0].
    + split.
      * destruct (FeedbackClassifier.try_themes json_parse response)
          as [[t|]|e1]; discriminate.
      * intros [_ [N _]]. discriminate.
    + split.
      * intros H. inversion H. repeat split. discriminate.
      * intros [_ [N O]]. inversion N. subst. reflexivity.
Qed.

Lemma parseAIResponse_prose (before body after : string) (out : console) :
  first_index "{" before = None ->
  last_index "}" after = None ->
  fst (parseAIResponse (before ++ "{" ++ body ++ "}" ++ after) out)
  = fst (parseAIResponse ("{" ++ body ++ "}") out).
Proof.
  intros B A.
  assert (E : regex_match "{" "}" ("{" ++ body ++ "}") = Some ("{" ++ body ++ "}"))
    by exact (extraction_tolerates_prose "" body "" eq_refl eq_refl).
  unfold FeedbackClassifier.parseAIResponse, FeedbackClassifier.try_parse.
  rewrite (extraction_tolerates_prose before body after B A), E.
  match goal with
  | |- fst (match ?t with _ => _ end) = _ => destruct t
  end; reflexivity.
Qed.

(** X13 ([classifyFeedback], [parseAIResponse]).  Prose around the JSON
    object does not change the outcome: a response that wraps an object in
    text without an opening brace before it and without a closing brace
    after it is classified as the bare object is. *)
Theorem classification_ignores_surrounding_prose (ai ai' : Ai)
  (feedback : Feedback) (rules : ClassificationRules) (out : console)
  (before body after : string) :
  first_index "{" before = None ->
  last_index "}" after = None ->
  ai "@cf/meta/llama-3.1-70b-instruct" (classification_messages feedback rules)
    = Ok (before ++ "{" ++ body ++ "}" ++ after) ->
  ai' "@cf/meta/llama-3.1-70b-instruct" (classification_messages feedback rules)
    = Ok ("{" ++ body ++ "}") ->
  fst (classifyFeedback ai feedback rules out)
  = fst (classifyFeedback ai' feedback rules out).
Proof.
  intros B A Hai Hai'.
  pose proof (parseAIResponse_prose before body after out B A) as P.
  unfold FeedbackClassifier.classifyFeedback. rewrite Hai, Hai'.
  destruct (parseAIResponse (before ++ "{" ++ body ++ "}" ++ after) out)
    as [result o].
  destruct (parseAIResponse ("{" ++ body ++ "}") out) as [result' o'].
  cbn [fst] in *. subst. reflexivity.
Qed.

Lemma includes_here (s rest : string) : includes (s ++ rest) s = true.
Proof. apply includes_prefix, prefix_app. Qed.

Lemma includes_skip (a t s : string) :
  includes t s = true -> includes (a ++ t) s = true.
Proof.
  intros H. induction a as [|c a IH]; [exact H|].
  cbn [append includes].
  destruct (prefix s (String c (a ++ t))); [reflexivity | exact IH].
Qed.

(** X14 ([buildClassificationPrompt]).  The classification prompt contains
    the source, the title and the content of the feedback item verbatim and
    in full, and its label (or [None] for a missing or empty label). *)
Theorem prompt_embeds_feedback_verbatim (feedback : Feedback)
  (rules : ClassificationRules) :
  includes (buildClassificationPrompt feedback rules) (source feedback) = true
  /\ includes (buildClassificationPrompt feedback rules) (title feedback) = true
  /\ includes (buildClassificationPrompt feedback rules) (content feedback) = true
  /\ includes (buildClassificationPrompt feedback rules) (label_text feedback) = true.
Proof.
  unfold buildClassificationPrompt, label_text.
  repeat split;
    repeat first [apply includes_here | apply includes_skip].
Qed.

End FurtherProperties.

(* ================================================================== *)
(** ** Properties of [generatePMSummary], for every engine *)

Section SummaryProperties.

Variable number_to_string : float -> string.
Variable stringify_text : value -> string.
Variable to_fixed : float -> string.

#[local] Abbreviation field := (Summary.field number_to_string).
#[local] Abbreviation average := (Summary.average to_fixed).
#[local] Abbreviation immediate_line := (Summary.immediate_line number_to_string).
#[local] Abbreviation trust_line := (Summary.trust_line number_to_string).
#[local] Abbreviation quick_line := (Summary.quick_line number_to_string).
#[local] Abbreviation summary_prompt :=
  (Summary.summary_prompt number_to_string stringify_text to_fixed).
#[local] Abbreviation generatePMSummary :=
  (Summary.generatePMSummary number_to_string stringify_text to_fixed).

(** *** The three filters *)

Lemma route_includes_row (label : string) (f : value) :
  is_row f = true ->
  Summary.route_includes f label = Ok (in_bucket label f).
Proof.
  destruct f as [| |b|n|s|l|o]; cbn [is_row]; try discriminate.
  unfold Summary.route_includes, in_bucket. cbn [get].
  destruct (own "route" o) as [[| |b|n|s|l|p]|]; cbn [bind];
    try discriminate; reflexivity.
Qed.

Lemma filter_by_route_rows (label : string) (items : list value) :
  forallb is_row items = true ->
  Summary.filter_by_route label items = Ok (filter (in_bucket label) items).
Proof.
  induction items as [|f items IH]; cbn [forallb Summary.filter_by_route filter];
    [reflexivity|].
  intros H. apply andb_true_iff in H. destruct H as [F R].
  rewrite (route_includes_row label f F), (IH R). reflexivity.
Qed.

Lemma bucket_rows (label : string) (items : list value) :
  forallb is_row items = true ->
  Summary.bucket label items = Ok (firstn 5 (filter (in_bucket label) items)).
Proof.
  intros H. unfold Summary.bucket.
  rewrite (filter_by_route_rows label items H). reflexivity.
Qed.

Lemma forallb_filter {A : Type} (p q : A -> bool) (l : list A) :
  forallb p l = true -> forallb p (filter q l) = true.
Proof.
  induction l as [|x l IH]; cbn [forallb filter]; [reflexivity|].
  intros H. apply andb_true_iff in H. destruct H as [X L].
  destruct (q x); cbn [forallb]; [rewrite X|]; auto.
Qed.

Lemma filter_filter_implied {A : Type} (p q : A -> bool) (l : list A) :
  (forall x, p x = true -> q x = true) ->
  filter p (filter q l) = filter p l.
Proof.
  intros I. induction l as [|x l IH]; cbn [filter]; [reflexivity|].
  destruct (q x) eqn:Q; cbn [filter].
  - rewrite IH. reflexivity.
  - destruct (p x) eqn:P; [|exact IH].
    rewrite (I x P) in Q. discriminate.
Qed.

Lemma bucket_relevant (label : string) (items : list value) :
  In label route_labels ->
  forallb is_row items = true ->
  Summary.bucket label (filter relevant items) = Summary.bucket label items.
Proof.
  intros L H.
  rewrite (bucket_rows label items H),
    (bucket_rows label _ (forallb_filter is_row relevant items H)).
  rewrite filter_filter_implied; [reflexivity|].
  intros f B. unfold relevant.
  destruct L as [<-|[<-|[<-|[]]]]; rewrite B;
    rewrite ?orb_true_r; reflexivity.
Qed.

(** X16 ([generatePMSummary]).  On rows whose [route] is missing, [null]
    or a string, the summary depends only on the rows whose route names one
    of the three labels: all other rows can be dropped. *)
Theorem summary_ignores_rows_outside_the_three_routes (ai : Ai)
  (items : list value) (metrics : value) (period : string) :
  forallb is_row items = true ->
  generatePMSummary ai items metrics period
  = generatePMSummary ai (filter relevant items) metrics period.
Proof.
  intros H. unfold Summary.generatePMSummary.
  rewrite !(bucket_relevant _ items) by (try exact H; cbn; tauto).
  reflexivity.
Qed.

Lemma filter_none {A : Type} (p : A -> bool) (l : list A) :
  (forall x, In x l -> p x = false) -> filter p l = [].
Proof.
  intros H. induction l as [|x l IH]; cbn [filter]; [reflexivity|].
  rewrite (H x (or_introl eq_refl)). apply IH.
  intros y Y. apply H. right. exact Y.
Qed.

(** X17 ([generatePMSummary]).  Rows that have no [route] key are listed in
    no section: the summary is the one of the empty list of rows. *)
Theorem rows_without_route_leave_the_summary_empty (ai : Ai)
  (items : list value) (metrics : value) (period : string) :
  (forall f, In f items -> exists o, f = VObj o /\ own "route" o = None) ->
  generatePMSummary ai items metrics period
  = generatePMSummary ai [] metrics period.
Proof.
  intros H.
  assert (R : forallb is_row items = true).
  { apply forallb_forall. intros f F.
    destruct (H f F) as [o [-> O]]. cbn [is_row]. rewrite O. reflexivity. }
  assert (N : forall label, filter (in_bucket label) items = []).
  { intros label. apply filter_none. intros f F.
    destruct (H f F) as [o [-> O]]. cbn [in_bucket]. rewrite O. reflexivity. }
  unfold Summary.generatePMSummary.
  rewrite !(bucket_rows _ items R), !N. reflexivity.
Qed.

Lemma firstn_app_full {A : Type} (n : nat) (l l' : list A) :
  (n <= List.length l)%nat -> firstn n (l ++ l')%list = firstn n l.
Proof.
  intros H. rewrite firstn_app.
  replace (n - List.length l)%nat with 0%nat by lia.
  cbn [firstn]. apply app_nil_r.
Qed.

(** X18 ([generatePMSummary]).  Each section lists at most five rows: once
    the rows hold five of each of the three routes, further rows do not
    change the summary. *)
Theorem summary_reads_five_rows_per_route (ai : Ai)
  (items more : list value) (metrics : value) (period : string) :
  forallb is_row (items ++ more)%list = true ->
  (forall label, In label route_labels ->
     (5 <= List.length (filter (in_bucket label) items))%nat) ->
  generatePMSummary ai (items ++ more)%list metrics period
  = generatePMSummary ai items metrics period.
Proof.
  intros R F.
  assert (R' : forallb is_row items = true).
  { rewrite forallb_app in R. apply andb_true_iff in R. apply R. }
  unfold Summary.generatePMSummary.
  rewrite !(bucket_rows _ _ R), !(bucket_rows _ _ R'), !filter_app.
  rewrite !firstn_app_full by (apply F; cbn; tauto).
  reflexivity.
Qed.

(** *** What the summary can throw *)

Lemma route_includes_throws (f : value) (label : string) (e : exn) :
  Summary.route_includes f label = Throw e -> e = TypeError.
Proof.
  unfold Summary.route_includes, bind. intros H.
  destruct (get f "route") as [r|e'] eqn:G.
  - destruct r; inversion H; reflexivity.
  - inversion H; subst e'. apply (get_throws _ _ _ G).
Qed.

Lemma filter_by_route_throws (label : string) (items : list value) (e : exn) :
  Summary.filter_by_route label items = Throw e -> e = TypeError.
Proof.
  induction items as [|f items IH]; cbn [Summary.filter_by_route];
    [discriminate|].
  unfold bind. intros H.
  destruct (Summary.route_includes f label) as [keep|e'] eqn:R.
  - destruct (Summary.filter_by_route label items) as [kept|e''];
      [discriminate|].
    inversion H; subst e''. apply IH. reflexivity.
  - inversion H; subst e'. apply (route_includes_throws _ _ _ R).
Qed.

Lemma bucket_throws (label : string) (items : list value) (e : exn) :
  Summary.bucket label items = Throw e -> e = TypeError.
Proof.
  unfold Summary.bucket, bind. intros H.
  destruct (Summary.filter_by_route label items) as [kept|e'] eqn:F;
    [discriminate|].
  inversion H; subst e'. apply (filter_by_route_throws _ _ _ F).
Qed.

Lemma filter_by_route_nullish (label : string) (items : list value) :
  existsb nullish items = true ->
  Summary.filter_by_route label items = Throw TypeError.
Proof.
  induction items as [|f items IH]; cbn [existsb Summary.filter_by_route];
    [discriminate|].
  intros H.
  destruct (Summary.route_includes f label) as [keep|e] eqn:R; cbn [bind].
  - destruct (nullish f) eqn:N.
    + destruct f; try discriminate N; discriminate R.
    + rewrite (IH H). reflexivity.
  - rewrite (route_includes_throws _ _ _ R). reflexivity.
Qed.

Lemma field_throws (v : value) (k : string) (e : exn) :
  field v k = Throw e -> e = TypeError.
Proof.
  unfold Summary.field, bind. intros H.
  destruct (get v k) as [x|e'] eqn:G.
  - apply (to_string_throws number_to_string _ _ H).
  - inversion H; subst e'. apply (get_throws _ _ _ G).
Qed.

Lemma average_throws (metrics : value) (k : string) (e : exn) :
  average metrics k = Throw e -> e = TypeError.
Proof.
  unfold Summary.average, bind. intros H.
  destruct (get metrics "averages") as [a|e'] eqn:G;
    [|inversion H; subst e'; apply (get_throws _ _ _ G)].
  assert (U : match get a k with
              | Ok u =>
                  match u with
                  | VUndefined => Ok "N/A"
                  | VNull => Ok "N/A"
                  | VNum n => Ok (if to_fixed n =? "" then "N/A" else to_fixed n)
                  | _ => Throw TypeError
                  end
              | Throw e0 => Throw e0
              end = Throw e -> e = TypeError).
  { intros H'. destruct (get a k) as [u|e''] eqn:G'.
    - destruct u; inversion H'; reflexivity.
    - inversion H'; subst e''. apply (get_throws _ _ _ G'). }
  destruct a; try discriminate; apply U, H.
Qed.

Lemma map_lines_throws (line : value -> result string) (items : list value)
  (e : exn) :
  (forall f e', line f = Throw e' -> e' = TypeError) ->
  Summary.map_lines line items = Throw e -> e = TypeError.
Proof.
  intros L. induction items as [|f items IH]; cbn [Summary.map_lines];
    [discriminate|].
  unfold bind. intros H.
  destruct (line f) as [l|e'] eqn:F.
  - destruct (Summary.map_lines line items) as [ls|e'']; [discriminate|].
    inversion H; subst e''. apply IH. reflexivity.
  - inversion H; subst e'. apply (L _ _ F).
Qed.

Lemma section_text_throws (line : value -> result string) (items : list value)
  (e : exn) :
  (forall f e', line f = Throw e' -> e' = TypeError) ->
  Summary.section_text line items = Throw e -> e = TypeError.
Proof.
  intros L. unfold Summary.section_text, bind.
  destruct (0 <? List.length items)%nat; [|discriminate].
  destruct (Summary.map_lines line items) as [ls|e'] eqn:M; [discriminate|].
  intros H. inversion H; subst e'. apply (map_lines_throws _ _ _ L M).
Qed.

Ltac field_step H :=
  match type of H with
  | match field ?v ?k with _ => _ end = Throw _ =>
      let F := fresh "F" in
      destruct (field v k) eqn:F;
      [|inversion H; subst; apply (field_throws _ _ _ F)]
  end.

Lemma immediate_line_throws (f : value) (e : exn) :
  immediate_line f = Throw e -> e = TypeError.
Proof.
  unfold Summary.immediate_line, bind. intros H.
  repeat field_step H. discriminate.
Qed.

Lemma trust_line_throws (f : value) (e : exn) :
  trust_line f = Throw e -> e = TypeError.
Proof.
  unfold Summary.trust_line, bind. intros H.
  repeat field_step H. discriminate.
Qed.

Lemma quick_line_throws (f : value) (e : exn) :
  quick_line f = Throw e -> e = TypeError.
Proof.
  unfold Summary.quick_line, bind. intros H.
  repeat field_step H. discriminate.
Qed.

Lemma summary_prompt_throws (a b c : list value) (metrics : value)
  (period : string) (e : exn) :
  summary_prompt a b c metrics period = Throw e -> e = TypeError.
Proof.
  unfold Summary.summary_prompt, bind. intros H.
  field_step H.
  destruct (get metrics "by_route") as [br|e1] eqn:G1;
    [|inversion H; subst; apply (get_throws _ _ _ G1)].
  destruct (get metrics "by_source") as [bs|e2] eqn:G2;
    [|inversion H; subst; apply (get_throws _ _ _ G2)].
  destruct (average metrics "avg_urgency") as [au|e3] eqn:A1;
    [|inversion H; subst; apply (average_throws _ _ _ A1)].
  destruct (average metrics "avg_sentiment") as [asn|e4] eqn:A2;
    [|inversion H; subst; apply (average_throws _ _ _ A2)].
  destruct (average metrics "avg_impact") as [ai|e5] eqn:A3;
    [|inversion H; subst; apply (average_throws _ _ _ A3)].
  destruct (Summary.section_text immediate_line a) as [s1|e6] eqn:S1;
    [|inversion H; subst;
      apply (section_text_throws _ _ _ immediate_line_throws S1)].
  destruct (Summary.section_text trust_line b) as [s2|e7] eqn:S2;
    [|inversion H; subst;
      apply (section_text_throws _ _ _ trust_line_throws S2)].
  destruct (Summary.section_text quick_line c) as [s3|e8] eqn:S3;
    [|inversion H; subst;
      apply (section_text_throws _ _ _ quick_line_throws S3)].
  discriminate.
Qed.

(** X20 ([generatePMSummary]).  [generatePMSummary] fails with a
    [TypeError] or with the error of the model call, and with nothing
    else. *)
Theorem generatePMSummary_failures (ai : Ai) (items : list value)
  (metrics : value) (period : string) (e : exn) :
  generatePMSummary ai items metrics period = Throw e ->
  e = TypeError
  \/ exists prompt,
       ai "@cf/meta/llama-3.1-70b-instruct" (Summary.summary_messages prompt)
       = Throw e.
Proof.
  unfold Summary.generatePMSummary, bind. intros H.
  destruct (Summary.bucket "immediate_engineering" items) as [a|e1] eqn:B1;
    [|left; inversion H; subst; apply (bucket_throws _ _ _ B1)].
  destruct (Summary.bucket "trust_risk" items) as [b|e2] eqn:B2;
    [|left; inversion H; subst; apply (bucket_throws _ _ _ B2)].
  destruct (Summary.bucket "quick_win_backlog" items) as [c|e3] eqn:B3;
    [|left; inversion H; subst; apply (bucket_throws _ _ _ B3)].
  destruct (summary_prompt a b c metrics period) as [prompt|e4] eqn:P;
    [|left; inversion H; subst; apply (summary_prompt_throws _ _ _ _ _ _ P)].
  right. exists prompt. exact H.
Qed.

(** X21 ([generatePMSummary]).  A [null] or [undefined] row, or [null] or
    [undefined] metrics, make [generatePMSummary] throw a [TypeError]
    whatever the model would answer. *)
Theorem nullish_input_throws_before_the_model (ai : Ai) (items : list value)
  (metrics : value) (period : string) :
  existsb nullish items = true \/ nullish metrics = true ->
  generatePMSummary ai items metrics period = Throw TypeError.
Proof.
  intros H.
  destruct (generatePMSummary ai items metrics period) as [text|e] eqn:G.
  - exfalso. revert G. unfold Summary.generatePMSummary, Summary.bucket, bind.
    destruct H as [H|H].
    + rewrite (filter_by_route_nullish _ items H). discriminate.
    + destruct (Summary.filter_by_route "immediate_engineering" items);
        [|discriminate].
      destruct (Summary.filter_by_route "trust_risk" items); [|discriminate].
      destruct (Summary.filter_by_route "quick_win_backlog" items);
        [|discriminate].
      unfold Summary.summary_prompt, Summary.field, bind.
      destruct metrics; try discriminate H; discriminate.
  - revert G. unfold Summary.generatePMSummary, bind.
    destruct (Summary.bucket "immediate_engineering" items) as [a|e1] eqn:B1;
      [|intros G; inversion G; subst; rewrite (bucket_throws _ _ _ B1); reflexivity].
    destruct (Summary.bucket "trust_risk" items) as [b|e2] eqn:B2;
      [|intros G; inversion G; subst; rewrite (bucket_throws _ _ _ B2); reflexivity].
    destruct (Summary.bucket "quick_win_backlog" items) as [c|e3] eqn:B3;
      [|intros G; inversion G; subst; rewrite (bucket_throws _ _ _ B3); reflexivity].
    destruct (summary_prompt a b c metrics period) as [prompt|e4] eqn:P;
      [|intros G; inversion G; subst;
        rewrite (summary_prompt_throws _ _ _ _ _ _ P); reflexivity].
    exfalso. destruct H as [H|H].
    + unfold Summary.bucket in B1.
      rewrite (filter_by_route_nullish _ items H) in B1. discriminate.
    + unfold Summary.summary_prompt, Summary.field, bind in P.
      destruct metrics; try discriminate H; discriminate.
Qed.

End SummaryProperties.

(** *** Stored routes and the filters *)

Section StoredRoutes.

Variable string_to_number : string -> float.
Variable number_to_string : float -> string.

(** X19 ([generatePMSummary], [determineRoute]).  The filters of the
    summary read a stored route back exactly: on a row that stores the route
    [determineRoute] gave for a vector, each filter holds exactly when the
    predicate of its label held for the vector. *)
Theorem buckets_decode_determineRoute (c : ClassificationVector)
  (rules : ClassificationRules) (r : string) (o : props) :
  determineRoute string_to_number number_to_string (vector_value c) rules = Ok r ->
  own "route" o = Some (VStr r) ->
  Summary.route_includes (VObj o) "immediate_engineering"
  = Ok (ge (urgency c)
           (ImmediateEngineering.urgency_min
              (immediate_engineering (routing_rules rules)))
        && ge (impact c)
              (ImmediateEngineering.impact_min
                 (immediate_engineering (routing_rules rules))))
  /\ Summary.route_includes (VObj o) "quick_win_backlog"
     = Ok (le (urgency c)
              (QuickWinBacklog.urgency_max
                 (quick_win_backlog (routing_rules rules)))
           && ge (actionability c)
                 (QuickWinBacklog.actionability_min
                    (quick_win_backlog (routing_rules rules))))
  /\ Summary.route_includes (VObj o) "trust_risk"
     = Ok (le (sentiment c)
              (TrustRisk.sentiment_max (trust_risk (routing_rules rules)))
           && ge (impact c)
                 (TrustRisk.impact_min (trust_risk (routing_rules rules)))).
Proof.
  intros R O.
  rewrite determineRoute_vector in R. inversion R as [E]. subst r.
  destruct (route_string_decodes c rules) as [D1 [D2 D3]].
  unfold Summary.route_includes. cbn [get]. rewrite O. cbn [bind].
  rewrite D1, D2, D3. repeat split; reflexivity.
Qed.

End StoredRoutes.

(* ================================================================== *)
(** ** What the reference parser makes of a bracketed text *)





(* ================================================================== *)
(** ** The further properties on the reference engine *)

(** Axes given as a numeric string, [null], a boolean and a missing key
    route as the numbers 5, 0, 1 and NaN do. *)
Lemma determineRoute_coerces_primitive_axes_witness :
  route (VObj [("urgency", VStr "5"); ("sentiment", VNull); ("impact", VBool true)])
        defaultRules
  = route (vector_value {| urgency := 5; sentiment := 0;
                           impact := 1; actionability := nan |})
          defaultRules.
Proof.
  apply (determineRoute_coerces_primitive_axes Runtime.StringToNumber
           Runtime.NumberToString
           [("urgency", VStr "5"); ("sentiment", VNull); ("impact", VBool true)]
           5 0 1 nan defaultRules);
    vm_compute; reflexivity.
Defined.

(** A classification with urgency and sentiment only. *)
Lemma missing_axes_route_to_standard_backlog_witness :
  route (VObj [("urgency", VNum 5); ("sentiment", VNum (-2))]) defaultRules
  = Ok "standard_backlog".
Proof.
  apply (missing_axes_route_to_standard_backlog Runtime.StringToNumber
           Runtime.NumberToString
           [("urgency", VNum 5); ("sentiment", VNum (-2))] 5 (-2) defaultRules);
    reflexivity.
Defined.

(** Under the default thresholds (quick wins up to urgency 2, immediate
    engineering from urgency 4) no route names both. *)
Lemma immediate_excludes_quick_win_witness :
  exists r,
    route (vector_value {| urgency := 5; sentiment := -2;
                           impact := 5; actionability := 5 |}) defaultRules
    = Ok r
    /\ includes r "immediate_engineering" && includes r "quick_win_backlog" = false.
Proof.
  apply (immediate_excludes_quick_win Runtime.StringToNumber Runtime.NumberToString
           {| urgency := 5; sentiment := -2; impact := 5; actionability := 5 |}
           defaultRules).
  vm_compute. reflexivity.
Defined.

(** Raising the impact from 3 to 5 keeps the trust risk label. *)
Lemma route_monotone_in_impact_witness :
  includes "immediate_engineering,trust_risk" "trust_risk" = true.
Proof.
  apply (route_monotone_in_impact Runtime.StringToNumber Runtime.NumberToString
           {| urgency := 5; sentiment := -2; impact := 3; actionability := 3 |}
           5 defaultRules "trust_risk" "immediate_engineering,trust_risk"
           "trust_risk").
  - vm_compute. reflexivity.
  - vm_compute. reflexivity.
  - vm_compute. reflexivity.
  - cbn. tauto.
  - vm_compute. reflexivity.
Defined.

(** An accepted response without a signals array. *)
Lemma classifyFeedback_throws_only_TypeError_witness :
  classify (answering signalless_response) sample_feedback defaultRules []
  = (Throw TypeError, [])
  /\ (TypeError = TypeError
      /\ @nil (list log_arg)
         = snd (parseAIResponse Runtime.JSON_parse signalless_response [])).
Proof.
  split; [vm_compute; reflexivity|].
  apply (classifyFeedback_throws_only_TypeError Runtime.JSON_parse
           Runtime.StringToNumber Runtime.NumberToString
           (answering signalless_response) sample_feedback defaultRules
           [] [] signalless_response TypeError).
  - reflexivity.
  - vm_compute. reflexivity.
Defined.

Lemma signals_not_an_array_throws_witness :
  classify (answering signalless_response) sample_feedback defaultRules []
  = (Throw TypeError,
     snd (parseAIResponse Runtime.JSON_parse signalless_response []))
  /\ snd (parseAIResponse Runtime.JSON_parse signalless_response []) = [].
Proof.
  apply (signals_not_an_array_throws Runtime.JSON_parse
           Runtime.StringToNumber Runtime.NumberToString
           (answering signalless_response) sample_feedback defaultRules
           [] signalless_response).
  - reflexivity.
  - intros sl. vm_compute. discriminate.
Defined.


(** A classification object that carries [route], [confidence] and
    [reasoning] keys of its own. *)
Lemma computed_fields_override_model_keys_witness :
  exists res,
    classify (answering shadowing_response) sample_feedback defaultRules []
    = (Ok res, [])
    /\ own "route" (classification res)
       = Some (VStr "immediate_engineering,trust_risk")
    /\ own "confidence" (classification res) = Some (VNum 0.4)
    /\ own "reasoning" (classification res) = Some (VStr "top level").
Proof.
  destruct (classify (answering shadowing_response) sample_feedback
              defaultRules []) as [[res|e] out'] eqn:E;
    [|vm_compute in E; discriminate].
  assert (O : out' = []) by (vm_compute in E; congruence).
  subst out'.
  destruct (computed_fields_override_model_keys Runtime.JSON_parse
              Runtime.StringToNumber Runtime.NumberToString
              (answering shadowing_response) sample_feedback defaultRules
              [] [] shadowing_response res eq_refl E)
    as [c [r [cf [rs [Gc [R [_ [Gcf [Grs [Or [Oc Os]]]]]]]]]]].
  vm_compute in Gc. inversion Gc as [C]. subst c.
  vm_compute in R. inversion R as [R']. subst r.
  vm_compute in Gcf. inversion Gcf as [C']. subst cf.
  vm_compute in Grs. inversion Grs as [C'']. subst rs.
  exists res. repeat split; assumption.
Defined.

(** The same response under the default and under lenient thresholds. *)
Lemma thresholds_only_move_the_route_witness :
  exists res res',
    classify (answering well_formed_response) sample_feedback defaultRules []
    = (Ok res, [])
    /\ classify (answering well_formed_response) sample_feedback lenient_rules []
       = (Ok res', [])
    /\ signals res = signals res'
    /\ own "urgency" (classification res) = own "urgency" (classification res')
    /\ own "route" (classification res) <> own "route" (classification res').
Proof.
  destruct (classify (answering well_formed_response) sample_feedback
              defaultRules []) as [[res|e] out1] eqn:E;
    [|vm_compute in E; discriminate].
  destruct (classify (answering well_formed_response) sample_feedback
              lenient_rules []) as [[res'|e'] out2] eqn:E';
    [|vm_compute in E'; discriminate].
  assert (O : out1 = []) by (vm_compute in E; congruence).
  assert (O' : out2 = []) by (vm_compute in E'; congruence).
  destruct (thresholds_only_move_the_route Runtime.JSON_parse
              Runtime.StringToNumber Runtime.NumberToString
              (answering well_formed_response) sample_feedback
              defaultRules lenient_rules [] out1 out2 res res'
              eq_refl eq_refl E E') as [_ [S K]].
  exists res, res'. subst out1 out2.
  split; [reflexivity|]. split; [reflexivity|]. split; [exact S|].
  split; [apply K; discriminate|].
  vm_compute in E, E'.
  inversion E. inversion E'. vm_compute. discriminate.
Defined.

(** The object alone and the object inside a sentence. *)
Lemma classification_ignores_surrounding_prose_witness :
  fst (classify
         (answering ("Here you go: " ++ "{" ++
                     quoted "'classification': {'urgency': 5, 'impact': 5}, 'signals': []"
                     ++ "}" ++ " I hope this helps."))
         sample_feedback defaultRules [])
  = fst (classify
           (answering ("{" ++
                       quoted "'classification': {'urgency': 5, 'impact': 5}, 'signals': []"
                       ++ "}"))
           sample_feedback defaultRules []).
Proof.
  apply (classification_ignores_surrounding_prose Runtime.JSON_parse
           Runtime.StringToNumber Runtime.NumberToString
           (answering ("Here you go: " ++ "{" ++
                       quoted "'classification': {'urgency': 5, 'impact': 5}, 'signals': []"
                       ++ "}" ++ " I hope this helps."))
           (answering ("{" ++
                       quoted "'classification': {'urgency': 5, 'impact': 5}, 'signals': []"
                       ++ "}"))
           sample_feedback defaultRules []
           "Here you go: "
           (quoted "'classification': {'urgency': 5, 'impact': 5}, 'signals': []")
           " I hope this helps.");
    reflexivity.
Defined.

(** Two routed rows among rows the summary does not list. *)
Lemma summary_ignores_rows_outside_the_three_routes_witness :
  summarize echo
    [routeless_row "a"; routed_row "b" "trust_risk";
     routed_row "c" "standard_backlog"; routed_row "d" "quick_win_backlog"]
    sample_metrics "last 7 days"
  = summarize echo
      [routed_row "b" "trust_risk"; routed_row "d" "quick_win_backlog"]
      sample_metrics "last 7 days".
Proof.
  apply (summary_ignores_rows_outside_the_three_routes Runtime.NumberToString
           Format.stringify_text Format.toFixed1 echo
           [routeless_row "a"; routed_row "b" "trust_risk";
            routed_row "c" "standard_backlog"; routed_row "d" "quick_win_backlog"]
           sample_metrics "last 7 days").
  reflexivity.
Defined.

Lemma rows_without_route_leave_the_summary_empty_witness :
  summarize echo [routeless_row "a"; routeless_row "b"] sample_metrics "last 7 days"
  = summarize echo [] sample_metrics "last 7 days".
Proof.
  apply (rows_without_route_leave_the_summary_empty Runtime.NumberToString
           Format.stringify_text Format.toFixed1 echo
           [routeless_row "a"; routeless_row "b"] sample_metrics "last 7 days").
  intros f [<-|[<-|[]]]; eexists; split; reflexivity.
Defined.

(** Five rows on all three routes, and a sixth. *)
Lemma summary_reads_five_rows_per_route_witness :
  let all := "immediate_engineering,quick_win_backlog,trust_risk" in
  let five := [routed_row "1" all; routed_row "2" all; routed_row "3" all;
               routed_row "4" all; routed_row "5" all] in
  summarize echo (five ++ [routed_row "6" all])%list sample_metrics "last 7 days"
  = summarize echo five sample_metrics "last 7 days".
Proof.
  intros all five.
  apply (summary_reads_five_rows_per_route Runtime.NumberToString
           Format.stringify_text Format.toFixed1 echo
           five [routed_row "6" all] sample_metrics "last 7 days").
  - reflexivity.
  - intros label [<-|[<-|[<-|[]]]]; vm_compute; lia.
Defined.

(** A row that stores the route of a vector under the default thresholds. *)
Lemma buckets_decode_determineRoute_witness :
  Summary.route_includes (routed_row "b" "immediate_engineering,trust_risk")
    "immediate_engineering" = Ok true
  /\ Summary.route_includes (routed_row "b" "immediate_engineering,trust_risk")
       "quick_win_backlog" = Ok false
  /\ Summary.route_includes (routed_row "b" "immediate_engineering,trust_risk")
       "trust_risk" = Ok true.
Proof.
  apply (buckets_decode_determineRoute Runtime.StringToNumber Runtime.NumberToString
           {| urgency := 5; sentiment := -2; impact := 5; actionability := 3 |}
           defaultRules "immediate_engineering,trust_risk"
           [("id", VStr "b"); ("source", VStr "github"); ("title", VStr "T");
            ("urgency", VNum 5); ("sentiment", VNum (-2)); ("impact", VNum 4);
            ("actionability", VNum 3);
            ("route", VStr "immediate_engineering,trust_risk")]).
  - vm_compute. reflexivity.
  - reflexivity.
Defined.

(** A model call that is rejected. *)
Lemma generatePMSummary_failures_witness :
  summarize (failing "timeout") [routed_row "b" "trust_risk"] sample_metrics
    "last 7 days"
  = Throw (Rejected "timeout")
  /\ (Rejected "timeout" = TypeError
      \/ exists prompt,
           failing "timeout" "@cf/meta/llama-3.1-70b-instruct"
             (Summary.summary_messages prompt)
           = Throw (Rejected "timeout")).
Proof.
  split; [vm_compute; reflexivity|].
  apply (generatePMSummary_failures Runtime.NumberToString
           Format.stringify_text Format.toFixed1 (failing "timeout")
           [routed_row "b" "trust_risk"] sample_metrics "last 7 days"
           (Rejected "timeout")).
  vm_compute. reflexivity.
Defined.

(** A [null] among the rows. *)
Lemma nullish_input_throws_before_the_model_witness :
  summarize echo [routed_row "b" "trust_risk"; VNull] sample_metrics "last 7 days"
  = Throw TypeError.
Proof.
  apply (nullish_input_throws_before_the_model Runtime.NumberToString
           Format.stringify_text Format.toFixed1 echo
           [routed_row "b" "trust_risk"; VNull] sample_metrics "last 7 days").
  left. reflexivity.
Defined.

